(** * Homunculus AutoSync daemon: a shallow embedding of [homunculus_daemon.py]

    The daemon polls the GitHub commit API, downloads the files a new commit
    added or modified, records the commit hash in a state file and, when
    enabled, commits and pushes the working tree.

    Conventions of the embedding.
    - Python [str] values are [string]s holding their UTF-8 bytes.  Every
      pattern the code searches for is ASCII, so searching bytes or code
      points agrees; slicing, [strip] and reading the state file go by code
      point.  The locale is taken to be UTF-8 and the system POSIX (a line
      feed is written as it is).
    - JSON values returned by [json.load] are the inductive [json]; a Python
      [dict] is a [gmap string json]; Python [None] is [JNull].
    - The state file [data/runtime_commit_id] lies in the working tree the
      downloads are written to: what a download does to it is part of the
      outside world ([state_file_after]).
    - Effects are explicit: a computation takes the state of the world and
      returns an outcome (a raised exception or a value), the new state and
      the list of external actions it performed, in order.
    - [exn] covers the subclasses of [Exception] only; [KeyboardInterrupt] and
      the other [BaseException]s stop the process and are not modelled.
    - [print] and [traceback.print_exc] are assumed not to raise, and the
      strings of the API's answer to hold no lone surrogate.
    - The clock readings of [time.time()] and the elapsed time shown in the
      [Sync complete] line are left out. *)

From Stdlib Require Import ZArith Ascii String Lia.
From stdpp Require Import gmap strings list.
Set Warnings "-register-all".
Open Scope string_scope.
Open Scope list_scope.
Open Scope stdpp_scope.

(** ** Python string operations used by the daemon *)

Module PyStr.

(** [s.startswith(p)] is [String.prefix p s]. *)

(** [sub in s] *)
Fixpoint contains (sub s : string) : bool :=
  String.prefix sub s ||
  match s with
  | EmptyString => false
  | String _ s' => contains sub s'
  end.

(** [s.replace(old, new)] for a non-empty [old] (every call site passes a
    literal): occurrences are found left to right and do not overlap.
    [skip] counts the characters of a matched occurrence still to be passed. *)
Fixpoint replace_from (old new : string) (skip : nat) (s : string) : string :=
  match s with
  | EmptyString => EmptyString
  | String c s' =>
      match skip with
      | S k => replace_from old new k s'
      | O =>
          if String.prefix old s
          then new +:+ replace_from old new (String.length old - 1) s'
          else String c (replace_from old new 0 s')
      end
  end.

Definition replace (old new s : string) : string := replace_from old new 0 s.

(** Puts [c] in front of the first field of a split. *)
Definition cons_field (c : ascii) (fields : list string) : list string :=
  match fields with
  | [] => [String c EmptyString]
  | f :: fs => String c f :: fs
  end.

(** [s.split(sep)] for a non-empty [sep] (every call site passes a literal). *)
Fixpoint split_from (sep : string) (skip : nat) (s : string) : list string :=
  match s with
  | EmptyString => [EmptyString]
  | String c s' =>
      match skip with
      | S k => split_from sep k s'
      | O =>
          if String.prefix sep s
          then EmptyString :: split_from sep (String.length sep - 1) s'
          else cons_field c (split_from sep 0 s')
      end
  end.

Definition split (sep s : string) : list string := split_from sep 0 s.

Definition byte_in (lo hi : nat) (c : ascii) : bool :=
  let n := nat_of_ascii c in ((lo <=? n) && (n <=? hi))%nat.

Definition is_byte (k : nat) (c : ascii) : bool := (nat_of_ascii c =? k)%nat.

(** A UTF-8 continuation byte, 0x80..0xBF. *)
Definition continuation (c : ascii) : bool := byte_in 128 191 c.

(** [s[:n]] on a text: its first [n] code points, that is, the bytes up to
    the [n+1]-th byte that starts a code point. *)
Fixpoint take (n : nat) (s : string) : string :=
  match s with
  | EmptyString => EmptyString
  | String c s' =>
      if continuation c then String c (take n s')
      else match n with
           | O => EmptyString
           | S k => String c (take k s')
           end
  end.

(** The first two bytes of a well-formed three-byte and four-byte sequence
    (no overlong form, no surrogate, nothing above U+10FFFF). *)
Definition lead3 (b0 b1 : ascii) : bool :=
  (is_byte 224 b0 && byte_in 160 191 b1) || (byte_in 225 236 b0 && continuation b1)
  || (is_byte 237 b0 && byte_in 128 159 b1) || (byte_in 238 239 b0 && continuation b1).

Definition lead4 (b0 b1 : ascii) : bool :=
  (is_byte 240 b0 && byte_in 144 191 b1) || (byte_in 241 243 b0 && continuation b1)
  || (is_byte 244 b0 && byte_in 128 143 b1).

Definition seq1 (b0 : ascii) : string := String b0 EmptyString.
Definition seq2 (b0 b1 : ascii) : string := String b0 (seq1 b1).
Definition seq3 (b0 b1 b2 : ascii) : string := String b0 (seq2 b1 b2).
Definition seq4 (b0 b1 b2 b3 : ascii) : string := String b0 (seq3 b1 b2 b3).

(** [bytes.decode("utf-8")], strict: the code points of the text, each kept
    as its bytes, or [None] where Python raises [UnicodeDecodeError]. *)
Fixpoint chars (s : string) : option (list string) :=
  match s with
  | EmptyString => Some []
  | String b0 s0 =>
      if byte_in 0 127 b0 then cons (seq1 b0) <$> chars s0
      else
        match s0 with
        | EmptyString => None
        | String b1 s1 =>
            if byte_in 194 223 b0 && continuation b1
            then cons (seq2 b0 b1) <$> chars s1
            else
              match s1 with
              | EmptyString => None
              | String b2 s2 =>
                  if lead3 b0 b1 && continuation b2
                  then cons (seq3 b0 b1 b2) <$> chars s2
                  else
                    match s2 with
                    | EmptyString => None
                    | String b3 s3 =>
                        if lead4 b0 b1 && continuation b2 && continuation b3
                        then cons (seq4 b0 b1 b2 b3) <$> chars s3
                        else None
                    end
              end
        end
  end.

(** The text made of the code points [cs]. *)
Definition join (cs : list string) : string := foldr String.append EmptyString cs.

Definition CR : string := seq1 "013".
Definition LF : string := seq1 "010".

(** Universal newlines, as applied when a file is read in text mode:
    [\r\n] and a lone [\r] become [\n]. *)
Fixpoint universal_newlines (cs : list string) : list string :=
  match cs with
  | [] => []
  | c :: rest =>
      if String.eqb c CR then
        LF :: match rest with
              | [] => []
              | c' :: rest' =>
                  if String.eqb c' LF then universal_newlines rest'
                  else universal_newlines rest
              end
      else c :: universal_newlines rest
  end.

(** The code points [str.strip()] removes: U+0009..000D, U+001C..0020,
    U+0085, U+00A0, U+1680, U+2000..200A, U+2028, U+2029, U+202F, U+205F
    and U+3000, each by its UTF-8 bytes. *)
Definition is_space (ch : string) : bool :=
  match ch with
  | String b0 EmptyString => byte_in 9 13 b0 || byte_in 28 32 b0
  | String b0 (String b1 EmptyString) =>
      is_byte 194 b0 && (is_byte 133 b1 || is_byte 160 b1)
  | String b0 (String b1 (String b2 EmptyString)) =>
      (is_byte 225 b0 && is_byte 154 b1 && is_byte 128 b2)
      || (is_byte 226 b0 && is_byte 128 b1
          && (byte_in 128 138 b2 || is_byte 168 b2 || is_byte 169 b2 || is_byte 175 b2))
      || (is_byte 226 b0 && is_byte 129 b1 && is_byte 159 b2)
      || (is_byte 227 b0 && is_byte 128 b1 && is_byte 128 b2)
  | _ => false
  end.

Fixpoint lstrip_chars (cs : list string) : list string :=
  match cs with
  | c :: rest => if is_space c then lstrip_chars rest else cs
  | [] => []
  end.

(** [text.strip()] on the code points of a text. *)
Definition strip_chars (cs : list string) : list string :=
  rev (lstrip_chars (rev (lstrip_chars cs))).

(** Removes the trailing characters that satisfy [p]. *)
Fixpoint rstrip_where (p : ascii -> bool) (s : string) : string :=
  match s with
  | EmptyString => EmptyString
  | String c s' =>
      match rstrip_where p s' with
      | EmptyString => if p c then EmptyString else String c EmptyString
      | r => String c r
      end
  end.

(** [s.rstrip("/")] *)
Definition rstrip_slash (s : string) : string :=
  rstrip_where (Ascii.eqb "/"%char) s.

End PyStr.

(** ** Data model *)

(** A value produced by [json.load].  Only the truth value of a number is
    ever observed by the daemon, so numbers are kept as integers. *)
Inductive json :=
| JNull
| JBool (b : bool)
| JNum (n : Z)
| JStr (s : string)
| JArr (l : list json)
| JObj (d : gmap string json).

(** The exceptions of class [Exception] that can occur.  [OtherError] stands
    for what the outside world raises ([URLError], [HTTPError], a socket
    timeout, [OSError], [JSONDecodeError], ...), named by its text. *)
Inductive exn :=
| KeyError (key : string)
| IndexError
| TypeError
| AttributeError
| UnicodeDecodeError
| OtherError (text : string).

(** [datetime.utcnow()] *)
Record datetime := mkDatetime {
  year : nat; month : nat; day : nat;
  hour : nat; minute : nat; second : nat
}.

(** The module-level configuration (lines 32-37), read once at import. *)
Record Config := mkConfig {
  INTERVAL : Z;
  BASE_URL : string;
  GITHUB_REPO : string;
  GITHUB_TOKEN : string;
  BRANCH : string;
  AUTO_PUSH : bool
}.

(** [os.getenv("BASE_URL", "http://127.0.0.1:8000").rstrip("/")] *)
Definition BASE_URL_of_env (v : option string) : string :=
  PyStr.rstrip_slash (default "http://127.0.0.1:8000" v).

(** The configuration of a process started with none of the variables set. *)
Definition default_config : Config :=
  {| INTERVAL := 300;
     BASE_URL := BASE_URL_of_env None;
     GITHUB_REPO := "";
     GITHUB_TOKEN := "";
     BRANCH := "main";
     AUTO_PUSH := false |}.

(** [PROJECT_ROOT / filename]: a file named by the path that is joined to the
    project root (pathlib lets an absolute [filename] replace the root). *)
Record Path := InProjectRoot { relative : string }.

(** The lines the daemon prints. *)
Inductive log_line :=
| DaemonOnline (interval : Z) (repo branch : string)
| Fetching (url : json)
| DownloadFailed (orig : json) (e : exn)
| AutoPushed (msg : string)
| PushFailed (e : exn)
| NoNewCommits (sha8 : string)
| Updated (filename : json)
| SyncComplete
| Error (e : exn).

(** What the daemon does to the outside world, with the outcome of each call. *)
Inductive event :=
| EvUrlopen (url : string) (headers : list (string * string)) (timeout : Z)
            (outcome : exn + json)
| EvMkdir (dest : Path) (outcome : option exn)
| EvUrlretrieve (url : string) (dest : Path) (outcome : option exn)
| EvWriteText (data : string)
| EvRun (cmd : list string) (token : string) (outcome : exn + Z)
| EvPrint (line : log_line)
| EvPrintExc
| EvSleep (secs : Z).

(** The outside world: network, clock, working tree and the git client.
    Each call takes the world's state and returns its outcome and the new
    state; [inl e] and [Some e] are a raised exception. *)
Record Environment (Ext : Type) := mkEnvironment {
  (** [json.load(urlopen(Request(url, headers), timeout))] *)
  urlopen_json : string -> list (string * string) -> Z -> Ext -> (exn + json) * Ext;
  (** [dest.parent.mkdir(parents=True, exist_ok=True)] *)
  mkdir_parents : Path -> Ext -> option exn * Ext;
  (** [urllib.request.urlretrieve(url, dest)] *)
  urlretrieve : string -> Path -> Ext -> option exn * Ext;
  (** What the state file holds after that call, given what it held before:
      something else only when [dest] leads to the state file itself
      ([PROJECT_ROOT/data/runtime_commit_id], under any spelling). *)
  state_file_after : string -> Path -> Ext -> option string -> option string;
  utcnow : Ext -> datetime * Ext;
  (** [subprocess.run(cmd, cwd, env, check=False)]: an exit status, or an
      exception when the command cannot be started. *)
  subprocess_run : list string -> string -> Ext -> (exn + Z) * Ext
}.
Arguments urlopen_json {Ext} _ _ _ _ _.
Arguments mkdir_parents {Ext} _ _ _.
Arguments urlretrieve {Ext} _ _ _ _.
Arguments state_file_after {Ext} _ _ _ _ _.
Arguments utcnow {Ext} _ _.
Arguments subprocess_run {Ext} _ _ _ _.

(** The state a computation threads: the outside world and the bytes of
    [COMMIT_FILE] ([None] when the file does not exist).  The working tree
    belongs to the outside world, but a download whose destination is the
    state file changes [commit_file], as the world says.  Opening the state
    file is taken to succeed, its path is never a directory, and git does
    not touch it. *)
Record State (Ext : Type) := mkState {
  ext : Ext;
  commit_file : option string
}.
Arguments mkState {Ext} _ _.
Arguments ext {Ext} _.
Arguments commit_file {Ext} _.

(** ** Computations: state, exceptions and the trace of actions *)

Definition M (Ext A : Type) : Type :=
  State Ext -> (exn + A) * State Ext * list event.

Definition ret {Ext A} (a : A) : M Ext A := fun st => (inr a, st, []).

Definition raise {Ext A} (e : exn) : M Ext A := fun st => (inl e, st, []).

Definition bind {Ext A B} (m : M Ext A) (k : A -> M Ext B) : M Ext B :=
  fun st =>
    match m st with
    | (inl e, st1, t1) => (inl e, st1, t1)
    | (inr a, st1, t1) =>
        let '(r, st2, t2) := k a st1 in (r, st2, t1 ++ t2)
    end.

(** [try: m  except Exception as e: h e] *)
Definition try_except {Ext A} (m : M Ext A) (h : exn -> M Ext A) : M Ext A :=
  fun st =>
    match m st with
    | (inl e, st1, t1) =>
        let '(r, st2, t2) := h e st1 in (r, st2, t1 ++ t2)
    | (inr a, st1, t1) => (inr a, st1, t1)
    end.

Definition lift {Ext A} (r : exn + A) : M Ext A :=
  match r with
  | inl e => raise e
  | inr a => ret a
  end.

Definition emit {Ext} (ev : event) : M Ext unit := fun st => (inr tt, st, [ev]).

Definition print {Ext} (line : log_line) : M Ext unit := emit (EvPrint line).

Notation "x <- m ;; k" := (bind m (fun x => k))
  (at level 100, m at next level, right associativity).
Notation "m ;; k" := (bind m (fun _ => k))
  (at level 100, right associativity).

(** [for x in l: body x] *)
Fixpoint for_each {Ext A} (body : A -> M Ext unit) (l : list A) : M Ext unit :=
  match l with
  | [] => ret tt
  | x :: xs => body x ;; for_each body xs
  end.

(** Selectors on the result of running a computation. *)
Definition outcome {Ext A} (r : (exn + A) * State Ext * list event) : exn + A := r.1.1.
Definition final {Ext A} (r : (exn + A) * State Ext * list event) : State Ext := r.1.2.
Definition trace {Ext A} (r : (exn + A) * State Ext * list event) : list event := r.2.

(** ** Python operations on JSON values *)

(** [v.get(k)]: [AttributeError] unless [v] is a dict. *)
Definition dict_get (v : json) (k : string) : exn + json :=
  match v with
  | JObj d => inr (default JNull (d !! k))
  | _ => inl AttributeError
  end.

(** [v[k]] for a string key. *)
Definition subscript (v : json) (k : string) : exn + json :=
  match v with
  | JObj d =>
      match d !! k with
      | Some x => inr x
      | None => inl (KeyError k)
      end
  | _ => inl TypeError
  end.

(** Truth value, as tested by [or]. *)
Definition truthy (v : json) : bool :=
  match v with
  | JNull => false
  | JBool b => b
  | JNum n => negb (n =? 0)%Z
  | JStr s => negb (String.eqb s "")
  | JArr l => negb (bool_decide (l = []))
  | JObj d => negb (bool_decide (d = ∅))
  end.

(** What [for f in v] iterates over: the elements of a list, the characters
    of a string, the keys of a dict; other values are not iterable. *)
Definition py_iter (v : json) : exn + list json :=
  match v with
  | JArr l => inr l
  | JStr s => inr (map (fun c => JStr (String c EmptyString)) (list_ascii_of_string s))
  | JObj d => inr (map (fun kv => JStr kv.1) (map_to_list d))
  | _ => inl TypeError
  end.

(** [v in {"added", "modified"}]: lists and dicts are unhashable. *)
Definition in_added_modified (v : json) : exn + bool :=
  match v with
  | JStr s => inr (String.eqb s "added" || String.eqb s "modified")
  | JArr _ | JObj _ => inl TypeError
  | _ => inr false
  end.

(** [sha == prev], where [prev] is [None] or a string. *)
Definition eq_prev (sha : json) (prev : option string) : bool :=
  match sha, prev with
  | JNull, None => true
  | JStr s, Some p => String.eqb s p
  | _, _ => false
  end.

(** [sha[:8]] as formatted into the log line; on the branch where it is
    evaluated [sha] is [None] or a string. *)
Definition slice8 (v : json) : exn + string :=
  match v with
  | JStr s => inr (PyStr.take 8 s)
  | _ => inl TypeError
  end.

(** [v == s] for a string [s]. *)
Definition is_str (s : string) (v : json) : bool :=
  match v with
  | JStr t => String.eqb t s
  | _ => false
  end.

(** [PROJECT_ROOT / name]: [TypeError] unless [name] is a string. *)
Definition under_root (name : json) : exn + Path :=
  match name with
  | JStr s => inr (InProjectRoot s)
  | _ => inl TypeError
  end.

(** ** Formatting the commit time stamp *)

Definition digit (d : nat) : ascii := ascii_of_nat (48 + d).

Definition two_digits (n : nat) : string :=
  String (digit (n / 10 mod 10)) (String (digit (n mod 10)) EmptyString).

Definition four_digits (n : nat) : string :=
  String (digit (n / 1000 mod 10)) (String (digit (n / 100 mod 10))
    (two_digits n)).

(** [dt.strftime("%Y-%m-%d %H:%M:%S")].  [%Y] is written with four digits,
    which is what every platform prints for the years 1000 to 9999. *)
Definition strftime (dt : datetime) : string :=
  four_digits (year dt) +:+ "-" +:+ two_digits (month dt) +:+ "-" +:+
  two_digits (day dt) +:+ " " +:+ two_digits (hour dt) +:+ ":" +:+
  two_digits (minute dt) +:+ ":" +:+ two_digits (second dt).

(** ** The daemon *)

Section Daemon.
Context {Ext : Type}.
Variable env : Environment Ext.
Variable cfg : Config.

(** Calls into the outside world. *)

Definition call_urlopen (url : string) (headers : list (string * string))
    (timeout : Z) : M Ext json :=
  fun st =>
    let '(r, e') := urlopen_json env url headers timeout (ext st) in
    (r, mkState e' (commit_file st), [EvUrlopen url headers timeout r]).

Definition call_mkdir (dest : Path) : M Ext unit :=
  fun st =>
    let '(r, e') := mkdir_parents env dest (ext st) in
    (match r with Some e => inl e | None => inr tt end,
     mkState e' (commit_file st), [EvMkdir dest r]).

Definition call_urlretrieve (url : string) (dest : Path) : M Ext unit :=
  fun st =>
    let '(r, e') := urlretrieve env url dest (ext st) in
    (match r with Some e => inl e | None => inr tt end,
     mkState e' (state_file_after env url dest (ext st) (commit_file st)),
     [EvUrlretrieve url dest r]).

Definition call_utcnow : M Ext datetime :=
  fun st =>
    let '(dt, e') := utcnow env (ext st) in
    (inr dt, mkState e' (commit_file st), []).

Definition call_run (cmd : list string) (token : string) : M Ext unit :=
  fun st =>
    let '(r, e') := subprocess_run env cmd token (ext st) in
    (match r with inl e => inl e | inr _ => inr tt end,
     mkState e' (commit_file st), [EvRun cmd token r]).

Definition sleep (secs : Z) : M Ext unit := emit (EvSleep secs).

(** [COMMIT_FILE.read_text()]: the bytes decoded, with universal newlines. *)
Definition read_text (content : string) : exn + list string :=
  match PyStr.chars content with
  | None => inl UnicodeDecodeError
  | Some cs => inr (PyStr.universal_newlines cs)
  end.

(** The value of [prev] for a state file holding [file]:
    [COMMIT_FILE.read_text().strip() if COMMIT_FILE.exists() else None]. *)
Definition stored_hash (file : option string) : exn + option string :=
  match file with
  | None => inr None
  | Some content =>
      match read_text content with
      | inl e => inl e
      | inr cs => inr (Some (PyStr.join (PyStr.strip_chars cs)))
      end
  end.

Definition read_prev : M Ext (option string) :=
  fun st => (stored_hash (commit_file st), st, []).

(** [COMMIT_FILE.write_text(data)]: [TypeError], before the file is opened,
    unless [data] is a string; the text is written as its UTF-8 bytes. *)
Definition write_text (data : json) : M Ext unit :=
  match data with
  | JStr s => fun st => (inr tt, mkState (ext st) (Some s), [EvWriteText s])
  | _ => raise TypeError
  end.

(** [_headers] *)
Definition _headers : list (string * string) :=
  if String.eqb (GITHUB_TOKEN cfg) ""
  then []
  else [("Authorization", "token " +:+ GITHUB_TOKEN cfg)].

(** The URL [_fetch_commit] requests. *)
Definition commit_url : string :=
  "https://api.github.com/repos/" +:+ GITHUB_REPO cfg +:+ "/commits/" +:+ BRANCH cfg.

(** [_fetch_commit] *)
Definition _fetch_commit : M Ext json :=
  call_urlopen commit_url _headers 30.

(** Lines 62-66 of [_safe_download] for a string: the URL to request. *)
Definition rewrite_location (raw_url : string) : exn + string :=
  if PyStr.contains "github.com" raw_url then
    match PyStr.split "github.com/" raw_url !! 1%nat with
    | None => inl IndexError
    | Some parts =>
        let parts := PyStr.replace "/raw/" "/" (PyStr.replace "/blob/" "/" parts) in
        match PyStr.split "?" parts !! 0%nat with
        | None => inl IndexError
        | Some parts =>
            let parts := PyStr.replace "%2F" "/" parts in
            inr ("https://raw.githubusercontent.com/" +:+ parts)
        end
    end
  else inr raw_url.

(** The same lines for any JSON value.  [in] raises [TypeError] on [None],
    a number or a boolean; on a list it compares the elements and on a dict
    the keys, and a list or dict that has ["github.com"] has no [split]. *)
Definition location (raw_url : json) : exn + json :=
  match raw_url with
  | JStr u =>
      match rewrite_location u with
      | inl e => inl e
      | inr url => inr (JStr url)
      end
  | JArr l =>
      if existsb (is_str "github.com") l
      then inl AttributeError else inr raw_url
  | JObj d =>
      if bool_decide (is_Some (d !! "github.com"))
      then inl AttributeError else inr raw_url
  | _ => inl TypeError
  end.

(** [urllib.request.urlretrieve(url, dest)]: a URL that is not a string is
    rejected with [TypeError] before anything is requested. *)
Definition retrieve (url : json) (dest : Path) : M Ext unit :=
  match url with
  | JStr u => call_urlretrieve u dest
  | _ => raise TypeError
  end.

(** [_safe_download] *)
Definition _safe_download (raw_url : json) (dest : Path) : M Ext unit :=
  call_mkdir dest ;;
  let orig := raw_url in
  try_except
    (url <- lift (location raw_url) ;;
     print (Fetching url) ;;
     retrieve url dest)
    (fun e => print (DownloadFailed orig e)).

(** The commit message of [_git_push_auto]. *)
Definition commit_message (now : datetime) : string :=
  "Automated patch sync: " +:+ strftime now.

Definition remote_url : string :=
  "https://" +:+ GITHUB_TOKEN cfg +:+ "@github.com/" +:+ GITHUB_REPO cfg +:+ ".git".

(** The list [cmds] of [_git_push_auto]. *)
Definition cmds (msg : string) : list (list string) :=
  [ ["git"; "config"; "--global"; "user.email"; "auto@prosperitytoolbox.dev"];
    ["git"; "config"; "--global"; "user.name"; "AutoSync Daemon"];
    ["git"; "pull"; remote_url; BRANCH cfg; "--rebase"];
    ["git"; "add"; "."];
    ["git"; "commit"; "-m"; msg];
    ["git"; "push"; remote_url; BRANCH cfg] ].

(** [_git_push_auto] *)
Definition _git_push_auto : M Ext unit :=
  try_except
    (now <- call_utcnow ;;
     let msg := commit_message now in
     for_each (fun cmd => call_run cmd (GITHUB_TOKEN cfg)) (cmds msg) ;;
     print (AutoPushed msg))
    (fun e => print (PushFailed e)).

(** The body of the loop over [files] (lines 112-115). *)
Definition sync_file (f : json) : M Ext unit :=
  status <- lift (dict_get f "status") ;;
  wanted <- lift (in_added_modified status) ;;
  if (wanted : bool) then
    name <- lift (subscript f "filename") ;;
    path <- lift (under_root name) ;;
    raw_url <- lift (subscript f "raw_url") ;;
    _safe_download raw_url path ;;
    name' <- lift (subscript f "filename") ;;
    print (Updated name')
  else ret tt.

(** [commit.get("files") or []] *)
Definition files_or_empty (v : json) : json :=
  if truthy v then v else JArr [].

(** The body of [try] in the loop of [run_autosync_daemon] (lines 102-120). *)
Definition cycle_body : M Ext unit :=
  commit <- _fetch_commit ;;
  sha <- lift (dict_get commit "sha") ;;
  prev <- read_prev ;;
  if eq_prev sha prev then
    sha8 <- lift (slice8 sha) ;;
    print (NoNewCommits sha8)
  else
    files <- lift (dict_get commit "files") ;;
    fs <- lift (py_iter (files_or_empty files)) ;;
    for_each sync_file fs ;;
    write_text sha ;;
    print SyncComplete ;;
    if AUTO_PUSH cfg then _git_push_auto else ret tt.

(** One turn of the loop without the sleep (lines 101-124). *)
Definition cycle : M Ext unit :=
  try_except cycle_body
    (fun e => print (Error e) ;; emit EvPrintExc).

(** [n] turns of [while True] (lines 100-126): an exception that escaped a
    turn would end the loop. *)
Fixpoint loop (n : nat) : M Ext unit :=
  match n with
  | O => ret tt
  | S k => cycle ;; sleep (INTERVAL cfg) ;; loop k
  end.

(** [run_autosync_daemon], observed for [n] turns of its loop. *)
Definition run_autosync_daemon (n : nat) : M Ext unit :=
  print (DaemonOnline (INTERVAL cfg) (GITHUB_REPO cfg) (BRANCH cfg)) ;;
  loop n.

End Daemon.

(** ** Observations on traces and descriptors, used to state the properties *)

(** The destinations the download helper was called with, in order: its
    first action is always the [mkdir] of the destination's parent. *)
Definition attempts (tr : list event) : list Path :=
  omap (fun ev => match ev with EvMkdir dest _ => Some dest | _ => None end) tr.

(** The URLs actually requested by [urlretrieve], in order. *)
Definition requested (tr : list event) : list string :=
  omap (fun ev => match ev with EvUrlretrieve u _ _ => Some u | _ => None end) tr.

(** The URL and the destination of each call of [urlretrieve], in order. *)
Definition retrievals (tr : list event) : list (string * Path) :=
  omap (fun ev => match ev with EvUrlretrieve u d _ => Some (u, d) | _ => None end) tr.

(** The values written to the state file, in order. *)
Definition writes (tr : list event) : list string :=
  omap (fun ev => match ev with EvWriteText s => Some s | _ => None end) tr.

(** The commands handed to [subprocess.run], in order. *)
Definition commands (tr : list event) : list (list string) :=
  omap (fun ev => match ev with EvRun cmd _ _ => Some cmd | _ => None end) tr.

(** The lines printed, in order. *)
Definition printed (tr : list event) : list log_line :=
  omap (fun ev => match ev with EvPrint l => Some l | _ => None end) tr.


(** Every retrieval that raised is followed at once by the helper's
    [Download failed] line carrying the same exception. *)
Fixpoint failures_logged (tr : list event) : Prop :=
  match tr with
  | [] => True
  | EvUrlretrieve _ _ (Some e) :: rest =>
      match rest with
      | EvPrint (DownloadFailed _ e') :: _ => e' = e
      | _ => False
      end /\ failures_logged rest
  | _ :: rest => failures_logged rest
  end.

(** The descriptor passes the test of line 112. *)
Definition wanted (f : json) : bool :=
  match dict_get f "status" with
  | inr status =>
      match in_added_modified status with
      | inr b => b
      | inl _ => false
      end
  | inl _ => false
  end.

(** The working-tree file a descriptor names. *)
Definition target (f : json) : option Path :=
  match subscript f "filename" with
  | inr (JStr name) => Some (InProjectRoot name)
  | _ => None
  end.

(** What the download helper does for [raw_url] and [dest] once the parent
    directory exists, when the retrieval, if it comes to one, ends as [o]. *)
Definition download_steps (raw_url : json) (dest : Path) (o : option exn) : list event :=
  match location raw_url with
  | inl e => [EvPrint (DownloadFailed raw_url e)]
  | inr (JStr url) =>
      EvPrint (Fetching (JStr url)) :: EvUrlretrieve url dest o ::
      match o with
      | Some e => [EvPrint (DownloadFailed raw_url e)]
      | None => []
      end
  | inr v => [EvPrint (Fetching v); EvPrint (DownloadFailed raw_url TypeError)]
  end.

(** What a completed turn of the file loop does for an added or modified
    descriptor whose retrieval ends as [o]. *)
Definition file_steps (f : json) (o : option exn) : list event :=
  match subscript f "filename", subscript f "raw_url" with
  | inr (JStr name), inr raw_url =>
      EvMkdir (InProjectRoot name) None ::
      download_steps raw_url (InProjectRoot name) o ++ [EvPrint (Updated (JStr name))]
  | _, _ => []
  end.

(** The request a descriptor stands for: the resolved location, to be
    stored at the file the descriptor names. *)
Definition expected_request (f : json) : option (string * Path) :=
  match subscript f "filename", subscript f "raw_url" with
  | inr (JStr name), inr raw_url =>
      match location raw_url with
      | inr (JStr url) => Some (url, InProjectRoot name)
      | _ => None
      end
  | _, _ => None
  end.

(** A changed-file descriptor as the data model has it: a dict whose
    classification, when present, is hashable and which, when it is
    classified added or modified, has a string [filename] and a [raw_url]. *)
Definition well_formed (f : json) : bool :=
  match f with
  | JObj d =>
      match in_added_modified (default JNull (d !! "status")) with
      | inl _ => false
      | inr false => true
      | inr true =>
          match d !! "filename", d !! "raw_url" with
          | Some (JStr _), Some _ => true
          | _, _ => false
          end
      end
  | _ => false
  end.

(** [sub] occurs in [s] as a contiguous substring. *)
Definition occurs (sub s : string) : Prop :=
  exists a b, s = a +:+ sub +:+ b.

(** Puts [pre] in front of the first field. *)
Definition prepend_field (pre : string) (fields : list string) : list string :=
  match fields with
  | [] => [pre]
  | f :: fs => (pre +:+ f) :: fs
  end.

(** The actions of the file loop, and those of the publisher. *)
Definition download_event (ev : event) : Prop :=
  match ev with
  | EvMkdir _ _ | EvUrlretrieve _ _ _
  | EvPrint (Fetching _) | EvPrint (DownloadFailed _ _) | EvPrint (Updated _) => True
  | _ => False
  end.

Definition publish_event (ev : event) : Prop :=
  match ev with
  | EvRun _ _ _ | EvPrint (AutoPushed _) | EvPrint (PushFailed _) => True
  | _ => False
  end.

(** The sleeps, in order. *)
Definition sleeps (tr : list event) : list Z :=
  omap (fun ev => match ev with EvSleep s => Some s | _ => None end) tr.

(** Creating the parent directories of a destination never fails. *)
Definition mkdir_succeeds {Ext} (env : Environment Ext) : Prop :=
  forall p e, (mkdir_parents env p e).1 = None.

(** Retrieving [ud.1] into [ud.2] leaves the state file as it is: the
    destination is another file. *)
Definition spares {Ext} (env : Environment Ext) (ud : string * Path) : Prop :=
  forall e c, state_file_after env ud.1 ud.2 e c = c.

(** No retrieval of the trace was aimed at the state file. *)
Definition state_file_spared {Ext} (env : Environment Ext) (tr : list event) : Prop :=
  Forall (spares env) (retrievals tr).

(** What the commit request of a cycle started in [st] returns. *)
Definition fetched {Ext} (env : Environment Ext) (cfg : Config) (st : State Ext) : exn + json :=
  (urlopen_json env (commit_url cfg) (_headers cfg) 30 (ext st)).1.

(** The outcomes of the commands started, in order. *)
Definition run_outcomes (tr : list event) : list (exn + Z) :=
  omap (fun ev => match ev with EvRun _ _ o => Some o | _ => None end) tr.

(** The command ran and returned an exit status (zero or not). *)
Definition exited (o : exn + Z) : Prop := exists status, o = inr status.

Definition is_digit (c : ascii) : bool :=
  let n := nat_of_ascii c in ((48 <=? n) && (n <=? 57))%nat.

(** The shape [YYYY-MM-DD HH:MM:SS]. *)
Definition is_timestamp (s : string) : bool :=
  match list_ascii_of_string s with
  | [y1; y2; y3; y4; d1; m1; m2; d2; a1; a2; sp; h1; h2; c1; n1; n2; c2; s1; s2] =>
      forallb is_digit [y1; y2; y3; y4; m1; m2; a1; a2; h1; h2; n1; n2; s1; s2]
      && forallb (Ascii.eqb "-") [d1; d2]
      && Ascii.eqb " " sp
      && forallb (Ascii.eqb ":") [c1; c2]
  | _ => false
  end.

(** The dates [strftime] is modelled for. *)
Definition valid_datetime (dt : datetime) : Prop :=
  (1000 <= Z.of_nat (year dt) <= 9999)%Z
  /\ (1 <= month dt <= 12 /\ 1 <= day dt <= 31
      /\ hour dt < 24 /\ minute dt < 60 /\ second dt < 60)%nat.

(** The state in which the file loop of a cycle started in [st] begins:
    the outside world has answered the commit request. *)
Definition after_fetch {Ext} (env : Environment Ext) (cfg : Config) (st : State Ext) : State Ext :=
  mkState (urlopen_json env (commit_url cfg) (_headers cfg) 30 (ext st)).2 (commit_file st).

(** ** Sample worlds, to run the daemon on concrete inputs *)

(** What the sample servers send for a URL. *)
Definition served (url : string) : string := "content of " +:+ url.

(** An outside world without memory: the commit request always returns
    [head], directories can always be created, a download fails as [dl]
    says, [git] answers as [git] says and the clock shows [now].  The state
    file is reached by the relative path [data/runtime_commit_id] only, and
    a download that fails leaves its destination as it was. *)
Definition scripted_env (head : exn + json) (dl : string -> option exn)
    (git : list string -> exn + Z) (now : datetime) : Environment unit :=
  {| urlopen_json := fun _ _ _ e => (head, e);
     mkdir_parents := fun _ e => (None, e);
     urlretrieve := fun u _ e => (dl u, e);
     state_file_after := fun u dest _ c =>
       if String.eqb (relative dest) "data/runtime_commit_id"
       then match dl u with None => Some (served u) | Some _ => c end
       else c;
     utcnow := fun e => (now, e);
     subprocess_run := fun c _ e => (git c, e) |}.

Definition descriptor (status filename raw_url : string) : json :=
  JObj (<["status" := JStr status]> (<["filename" := JStr filename]>
       (<["raw_url" := JStr raw_url]> ∅))).

Definition commit_dict (sha : string) (files : list json) : gmap string json :=
  <["sha" := JStr sha]> (<["files" := JArr files]> ∅).

Definition sample_time : datetime := mkDatetime 2024 3 9 7 5 1.

(** Push enabled, default base endpoint. *)
Definition sample_config : Config :=
  {| INTERVAL := 300; BASE_URL := BASE_URL_of_env None; GITHUB_REPO := "o/r";
     GITHUB_TOKEN := "tok"; BRANCH := "main"; AUTO_PUSH := true |}.

(** The same without a token and with the publisher switched off. *)
Definition quiet_config : Config :=
  {| INTERVAL := 300; BASE_URL := BASE_URL_of_env None; GITHUB_REPO := "o/r";
     GITHUB_TOKEN := ""; BRANCH := "main"; AUTO_PUSH := false |}.

(** A commit that adds [a.txt], removes [b.txt] and modifies [d/c.txt]. *)
Definition sample_files : list json :=
  [ descriptor "added" "a.txt" "https://github.com/o/r/raw/abc/a.txt";
    descriptor "removed" "b.txt" "https://github.com/o/r/raw/abc/b.txt";
    descriptor "modified" "d/c.txt" "https://github.com/o/r/raw/abc/d%2Fc.txt" ].

Definition sample_commit : gmap string json := commit_dict "abcdef0123456789" sample_files.

(** The download of [a.txt] is refused; every git command exits with 1. *)
Definition flaky_env : Environment unit :=
  scripted_env (inr (JObj sample_commit))
    (fun u => if String.eqb u "https://raw.githubusercontent.com/o/r/abc/a.txt"
              then Some (OtherError "HTTP Error 404: Not Found") else None)
    (fun _ => inr 1%Z) sample_time.

(** An outside world in which nothing fails and there is no new commit. *)
Definition calm_env : Environment unit :=
  scripted_env (inr (JObj (commit_dict "0000" []))) (fun _ => None)
    (fun _ => inr 0%Z) sample_time.

(** An outside world whose commit request times out. *)
Definition offline_env : Environment unit :=
  scripted_env (inl (OtherError "timed out")) (fun _ => None)
    (fun _ => inr 0%Z) sample_time.

(** An outside world in which no directory can be created. *)
Definition readonly_env : Environment unit :=
  {| urlopen_json := fun _ _ _ e => (inr (JObj sample_commit), e);
     mkdir_parents := fun _ e => (Some (OtherError "[Errno 30] Read-only file system"), e);
     urlretrieve := fun _ _ e => (None, e);
     state_file_after := fun _ _ _ c => c;
     utcnow := fun e => (sample_time, e);
     subprocess_run := fun _ _ e => (inr 0%Z, e) |}.

(** An outside world in which [git pull] cannot be started. *)
Definition no_pull_env : Environment unit :=
  scripted_env (inr (JObj sample_commit)) (fun _ => None)
    (fun cmd => if bool_decide (cmd !! 1%nat = Some "pull")
                then inl (OtherError "[Errno 13] Permission denied") else inr 0%Z)
    sample_time.

(** What a turn does after its commit request: no further request, no sleep. *)
Definition turn_event (ev : event) : Prop :=
  match ev with
  | EvUrlopen _ _ _ _ | EvSleep _ => False
  | _ => True
  end.

(** The commit requests made, in order: URL, headers and timeout. *)
Definition commit_requests (tr : list event)
    : list (string * list (string * string) * Z) :=
  omap (fun ev => match ev with
                  | EvUrlopen u h t _ => Some (u, h, t)
                  | _ => None
                  end) tr.

(** [k] slashes. *)
Fixpoint slashes (k : nat) : string :=
  match k with
  | O => EmptyString
  | S k' => String "/" (slashes k')
  end.

(** [s] does not end with a character satisfying [p]. *)
Definition ends_clean (p : ascii -> bool) (s : string) : Prop :=
  forall pre c, s = pre +:+ String c EmptyString -> p c = false.

(** A commit without a [files] entry, every download succeeding. *)
Definition bare_env : Environment unit :=
  scripted_env (inr (JObj (<["sha" := JStr "abcdef0123456789"]> ∅))) (fun _ => None)
    (fun _ => inr 0%Z) sample_time.

(** The API answers with an error object: no [sha], no [files]. *)
Definition message_env : Environment unit :=
  scripted_env (inr (JObj (<["message" := JStr "Not Found"]> ∅))) (fun _ => None)
    (fun _ => inr 0%Z) sample_time.

(** The API answers with a list. *)
Definition list_env : Environment unit :=
  scripted_env (inr (JArr [])) (fun _ => None) (fun _ => inr 0%Z) sample_time.

(** A commit whose [files] entry is a string. *)
Definition odd_files_env : Environment unit :=
  scripted_env
    (inr (JObj (<["sha" := JStr "abcdef0123456789"]> (<["files" := JStr "a.txt"]> ∅))))
    (fun _ => None) (fun _ => inr 0%Z) sample_time.


(** Every download succeeds, every git command exits with 0. *)
Definition steady_env : Environment unit :=
  scripted_env (inr (JObj sample_commit)) (fun _ => None) (fun _ => inr 0%Z) sample_time.





(** A state file that holds [0000] after a no-break space and before a
    carriage return and a line feed. *)
Definition padded_hash : string :=
  PyStr.seq2 "194" "160" +:+ "0000" +:+ PyStr.CR +:+ PyStr.LF.

(** A visible ASCII character: [!] to [~]. *)
Definition visible (c : ascii) : bool := PyStr.byte_in 33 126 c.

(** * Facts about the string operations *)

Example contains_ex1 : PyStr.contains "github.com" "https://github.com/o/r" = true.
Proof. reflexivity. Qed.
Example contains_ex2 :
  PyStr.contains "github.com" "https://raw.githubusercontent.com/o/r/main/a" = false.
Proof. reflexivity. Qed.
Example replace_ex1 : PyStr.replace "/blob/" "/" "o/r/blob/main/a/blob/b" = "o/r/main/a/b".
Proof. reflexivity. Qed.
Example replace_ex2 : PyStr.replace "aa" "b" "aaaaa" = "bba".
Proof. reflexivity. Qed.
Example split_ex1 : PyStr.split "?" "a/b?x=1?y" = ["a/b"; "x=1"; "y"].
Proof. reflexivity. Qed.
Example split_ex2 : PyStr.split "github.com/" "github.com" = ["github.com"].
Proof. reflexivity. Qed.
Example split_ex3 : PyStr.split "ab" "ab" = [""; ""].
Proof. reflexivity. Qed.
Example split_ex4 : PyStr.split "," "" = [""].
Proof. reflexivity. Qed.
Example take_ex1 : PyStr.take 2 (PyStr.seq2 "195" "169" +:+ "abc") = PyStr.seq2 "195" "169" +:+ "a".
Proof. reflexivity. Qed.
Example read_ex1 : stored_hash (Some padded_hash) = inr (Some "0000").
Proof. reflexivity. Qed.
Example read_ex2 :
  stored_hash (Some ("ab" +:+ PyStr.CR +:+ "cd")) = inr (Some ("ab" +:+ PyStr.LF +:+ "cd")).
Proof. reflexivity. Qed.
Example read_ex3 : stored_hash (Some (" a b " +:+ PyStr.seq3 "227" "128" "128")) = inr (Some "a b").
Proof. reflexivity. Qed.
Example read_ex4 : stored_hash (Some (PyStr.seq1 "255")) = inl UnicodeDecodeError.
Proof. reflexivity. Qed.
Example read_ex5 : stored_hash (Some (PyStr.seq2 "192" "175")) = inl UnicodeDecodeError.
Proof. reflexivity. Qed.
Example rstrip_ex1 : PyStr.rstrip_slash "http://h:8000//" = "http://h:8000".
Proof. reflexivity. Qed.

#[local] Arguments String.append !_ _ / : simpl nomatch.

Section StringFacts.

Lemma append_nil_r (s : string) : s +:+ "" = s.
Proof. induction s as [|c s IH]; simpl; congruence. Qed.

Lemma append_assoc (a b c : string) : (a +:+ b) +:+ c = a +:+ b +:+ c.
Proof. induction a as [|x a IH]; simpl; congruence. Qed.

Lemma prefix_cons (c d : ascii) (p s : string) :
  String.prefix (String c p) (String d s) = true <-> c = d /\ String.prefix p s = true.
Proof.
  simpl. destruct (ascii_dec c d) as [->|Hne].
  - tauto.
  - split; [discriminate | intros [? _]; contradiction].
Qed.

Lemma prefix_append (p s : string) : String.prefix p (p +:+ s) = true.
Proof.
  induction p as [|c p IH]; [destruct s; reflexivity|].
  simpl. destruct (ascii_dec c c); [exact IH | contradiction].
Qed.

Lemma prefix_inv (p s : string) :
  String.prefix p s = true -> exists w, s = p +:+ w.
Proof.
  revert s. induction p as [|c p IH]; intros s H.
  - exists s. reflexivity.
  - destruct s as [|d s]; [discriminate|].
    apply prefix_cons in H as [-> H]. destruct (IH _ H) as [w ->].
    exists w. reflexivity.
Qed.

(** A pattern that starts a concatenation either fits in the first part or
    runs over into the second. *)
Lemma prefix_app_cases (x y z : string) :
  String.prefix x (y +:+ z) = true ->
  (exists w, y = x +:+ w) \/
  (exists r, r <> "" /\ x = y +:+ r /\ String.prefix r z = true).
Proof.
  revert x. induction y as [|c y IH]; intros x H; simpl in H.
  - destruct x as [|d x].
    + left. exists "". reflexivity.
    + right. exists (String d x). repeat split; [discriminate | exact H].
  - destruct x as [|d x].
    + left. exists (String c y). reflexivity.
    + apply prefix_cons in H as [-> H]. destruct (IH _ H) as [[w ->]|(r & Hr & -> & Hp)].
      * left. exists w. reflexivity.
      * right. exists r. repeat split; assumption.
Qed.

Lemma occurs_prefix (p s : string) : String.prefix p s = true -> occurs p s.
Proof. intros H. destruct (prefix_inv _ _ H) as [w ->]. exists "", w. reflexivity. Qed.

Lemma occurs_cons (c : ascii) (sub s : string) : occurs sub s -> occurs sub (String c s).
Proof. intros (a & b & ->). exists (String c a), b. reflexivity. Qed.

Lemma occurs_app_r (sub a s : string) : occurs sub s -> occurs sub (a +:+ s).
Proof. induction a as [|c a IH]; intros H; simpl; [exact H | apply occurs_cons, IH, H]. Qed.

Lemma occurs_app_l (sub s b : string) : occurs sub s -> occurs sub (s +:+ b).
Proof.
  intros (x & y & ->). exists x, (y +:+ b). now rewrite !append_assoc.
Qed.

Lemma occurs_inv_cons (c : ascii) (sub s : string) :
  occurs sub (String c s) -> String.prefix sub (String c s) = true \/ occurs sub s.
Proof.
  intros ([|d a] & b & H); simpl in H.
  - left. rewrite H. apply prefix_append.
  - right. injection H as _ ->. exists a, b. reflexivity.
Qed.

(** [in] decides occurrence. *)
Lemma contains_occurs (sub s : string) : PyStr.contains sub s = true <-> occurs sub s.
Proof.
  induction s as [|c s IH].
  - cbn [PyStr.contains]. rewrite orb_false_r. split; [apply occurs_prefix|].
    intros ([|d a] & b & H); simpl in H; [|discriminate].
    destruct sub; [reflexivity | discriminate].
  - cbn [PyStr.contains]. rewrite orb_true_iff, IH. split.
    + intros [H|H]; [apply occurs_prefix, H | apply occurs_cons, H].
    + apply occurs_inv_cons.
Qed.

Lemma contains_false (sub s : string) : PyStr.contains sub s = false <-> ~ occurs sub s.
Proof.
  rewrite <- contains_occurs. destruct (PyStr.contains sub s); split; intros; congruence.
Qed.

(** ** [replace] *)

Lemma replace_from_skip (old new p s : string) :
  PyStr.replace_from old new (String.length p) (p +:+ s) = PyStr.replace_from old new 0 s.
Proof. induction p as [|c p IH]; simpl; [destruct s; reflexivity | exact IH]. Qed.

(** At an occurrence, [new] is emitted and the scan resumes after it. *)
Lemma replace_match (c : ascii) (old new s : string) :
  PyStr.replace (String c old) new (String c old +:+ s) = new +:+ PyStr.replace (String c old) new s.
Proof.
  unfold PyStr.replace. cbn [append PyStr.replace_from].
  change (String.prefix (String c old) (String c (old +:+ s)))
    with (String.prefix (String c old) (String c old +:+ s)).
  rewrite prefix_append. cbn [String.length].
  replace (S (String.length old) - 1)%nat with (String.length old) by lia.
  now rewrite replace_from_skip.
Qed.

(** Where no occurrence starts, the text is copied. *)
Lemma replace_copy (old new pre s : string) :
  (forall p1 p2, pre = p1 +:+ p2 -> p2 <> "" -> String.prefix old (p2 +:+ s) = false) ->
  PyStr.replace old new (pre +:+ s) = pre +:+ PyStr.replace old new s.
Proof.
  unfold PyStr.replace. induction pre as [|c pre IH]; intros H; [reflexivity|].
  cbn [append PyStr.replace_from].
  change (String c (pre +:+ s)) with (String c pre +:+ s).
  rewrite (H "" (String c pre) eq_refl) by discriminate.
  f_equal. apply IH. intros p1 p2 -> Hne. apply (H (String c p1) p2 eq_refl Hne).
Qed.

Lemma replace_absent (old new s : string) :
  ~ occurs old s -> PyStr.replace old new s = s.
Proof.
  intros H. rewrite <- (append_nil_r s) at 1. rewrite replace_copy.
  - unfold PyStr.replace. simpl. apply append_nil_r.
  - intros p1 p2 -> Hne. rewrite append_nil_r.
    destruct (String.prefix old p2) eqn:Hp; [|reflexivity].
    exfalso. apply H, occurs_app_r, occurs_prefix, Hp.
Qed.

(** ** [split] *)

Lemma split_from_skip (sep p s : string) :
  PyStr.split_from sep (String.length p) (p +:+ s) = PyStr.split_from sep 0 s.
Proof. induction p as [|c p IH]; simpl; [destruct s; reflexivity | exact IH]. Qed.

Lemma split_match (c : ascii) (sep s : string) :
  PyStr.split (String c sep) (String c sep +:+ s) = "" :: PyStr.split (String c sep) s.
Proof.
  unfold PyStr.split. cbn [append PyStr.split_from].
  change (String.prefix (String c sep) (String c (sep +:+ s)))
    with (String.prefix (String c sep) (String c sep +:+ s)).
  rewrite prefix_append. cbn [String.length].
  replace (S (String.length sep) - 1)%nat with (String.length sep) by lia.
  now rewrite split_from_skip.
Qed.

Lemma split_nonempty (sep s : string) : PyStr.split sep s <> [].
Proof.
  unfold PyStr.split. generalize 0. induction s as [|c s IH]; intros k; [discriminate|].
  cbn [PyStr.split_from]. destruct k; [|apply IH].
  destruct (String.prefix sep (String c s)); [discriminate|].
  specialize (IH 0). destruct (PyStr.split_from sep 0 s); [contradiction | discriminate].
Qed.

Lemma split_copy (sep pre s : string) :
  (forall p1 p2, pre = p1 +:+ p2 -> p2 <> "" -> String.prefix sep (p2 +:+ s) = false) ->
  PyStr.split sep (pre +:+ s) = prepend_field pre (PyStr.split sep s).
Proof.
  induction pre as [|c pre IH]; intros H.
  - simpl. pose proof (split_nonempty sep s). destruct (PyStr.split sep s); [contradiction | reflexivity].
  - unfold PyStr.split in *. cbn [append PyStr.split_from].
    change (String c (pre +:+ s)) with (String c pre +:+ s).
    rewrite (H "" (String c pre) eq_refl) by discriminate.
    rewrite IH.
    + destruct (PyStr.split_from sep 0 s); reflexivity.
    + intros p1 p2 -> Hne. apply (H (String c p1) p2 eq_refl Hne).
Qed.

Lemma split_absent (sep s : string) : ~ occurs sep s -> PyStr.split sep s = [s].
Proof.
  intros H. rewrite <- (append_nil_r s) at 1. rewrite split_copy.
  - unfold PyStr.split. simpl. now rewrite append_nil_r.
  - intros p1 p2 -> Hne. rewrite append_nil_r.
    destruct (String.prefix sep p2) eqn:Hp; [|reflexivity].
    exfalso. apply H, occurs_app_r, occurs_prefix, Hp.
Qed.

End StringFacts.

(** ** The markers [_safe_download] searches for *)

Section Markers.

(** A pattern whose first character does not recur in it cannot start inside
    [pre] and run over into a following copy of itself. *)
Lemma fresh_head_no_early_match (c : ascii) (sep pre t : string) :
  ~ occurs (String c "") sep ->
  ~ occurs (String c sep) pre ->
  forall p1 p2, pre = p1 +:+ p2 -> p2 <> "" ->
    String.prefix (String c sep) (p2 +:+ String c sep +:+ t) = false.
Proof.
  intros Hfresh Hpre p1 p2 -> Hne.
  destruct (String.prefix _ _) eqn:Hp; [exfalso | reflexivity].
  apply prefix_app_cases in Hp as [[w ->] | (r & Hr & Hsep & Hp)].
  - apply Hpre. exists p1, w. reflexivity.
  - destruct p2 as [|d p2]; [contradiction|]. destruct r as [|e r]; [contradiction|].
    simpl in Hsep. injection Hsep as -> ->.
    simpl in Hp. apply prefix_cons in Hp as [-> _].
    apply Hfresh. exists p2, r. reflexivity.
Qed.

Lemma host_marker_fresh : ~ occurs "g" "ithub.com/".
Proof. apply contains_false. reflexivity. Qed.

(** Splitting at the host marker when it occurs once, after [pre]. *)
Lemma split_host (pre t : string) :
  ~ occurs "github.com/" pre ->
  ~ occurs "github.com/" t ->
  PyStr.split "github.com/" (pre +:+ "github.com/" +:+ t) = [pre; t].
Proof.
  intros Hpre Ht. rewrite split_copy.
  - rewrite split_match, (split_absent _ _ Ht). simpl. now rewrite append_nil_r.
  - apply fresh_head_no_early_match; [apply host_marker_fresh | exact Hpre].
Qed.

(** A viewer segment ["/blob/"] or ["/raw/"] cannot start inside [a] and
    run over into a following ["/"], unless it already occurs in [a/r]. *)
Lemma viewer_no_early_match (seg a r y : string) :
  seg = "/blob/" \/ seg = "/raw/" ->
  ~ occurs seg (a +:+ "/" +:+ r) ->
  forall p1 p2, a = p1 +:+ p2 -> p2 <> "" ->
    String.prefix seg (p2 +:+ "/" +:+ y) = false.
Proof.
  intros Hseg Hno p1 p2 -> Hne.
  destruct (String.prefix _ _) eqn:Hp; [exfalso | reflexivity].
  apply prefix_app_cases in Hp as [[w ->] | (t & Ht & Hsplit & Hp)].
  - apply Hno. exists p1, (w +:+ "/" +:+ r). now rewrite !append_assoc.
  - destruct t as [|e t]; [contradiction|].
    simpl in Hp. apply prefix_cons in Hp as [-> _].
    assert (p2 +:+ "/" = seg /\ t = "") as [Hp2 ->].
    { destruct Hseg; subst seg;
        repeat (destruct p2 as [|? p2]; simpl in Hsplit;
                [try discriminate | injection Hsplit as <- Hsplit]);
        try contradiction; try discriminate;
        try (injection Hsplit as <-; split; reflexivity);
        destruct p2; discriminate. }
    apply Hno. exists p1, r. rewrite <- Hp2. now rewrite !append_assoc.
Qed.

End Markers.

Section Rewriting.

Lemma replace_segment (seg a r : string) :
  seg = "/blob/" \/ seg = "/raw/" ->
  ~ occurs seg (a +:+ "/" +:+ r) ->
  PyStr.replace seg "/" (a +:+ seg +:+ r) = a +:+ "/" +:+ r.
Proof.
  intros Hseg Hno.
  assert (Hr : ~ occurs seg r) by (intros H; apply Hno; do 2 apply occurs_app_r; exact H).
  destruct Hseg; subst seg.
  - rewrite replace_copy.
    + rewrite replace_match, (replace_absent _ _ _ Hr). reflexivity.
    + apply (viewer_no_early_match "/blob/" a r ("blob/" +:+ r)); auto.
  - rewrite replace_copy.
    + rewrite replace_match, (replace_absent _ _ _ Hr). reflexivity.
    + apply (viewer_no_early_match "/raw/" a r ("raw/" +:+ r)); auto.
Qed.

Lemma replace_blob_keeps_raw (a r : string) :
  ~ occurs "/blob/" (a +:+ "/" +:+ r) ->
  PyStr.replace "/blob/" "/" (a +:+ "/raw/" +:+ r) = a +:+ "/raw/" +:+ r.
Proof.
  intros Hno.
  assert (Hr : ~ occurs "/blob/" ("/" +:+ r)) by (intros H; apply Hno; apply occurs_app_r; exact H).
  rewrite replace_copy.
  - f_equal. change ("/raw/" +:+ r) with ("/raw" +:+ "/" +:+ r).
    rewrite replace_copy.
    + now rewrite (replace_absent _ _ _ Hr).
    + intros p1 p2 Hp Hne.
      do 4 (destruct p1 as [|? p1]; simpl in Hp;
            [subst p2; reflexivity | injection Hp as <- Hp]).
      destruct p1, p2; try discriminate. contradiction.
  - apply (viewer_no_early_match "/blob/" a r ("raw/" +:+ r)); auto.
Qed.

(** Lines 64: both viewer segments are removed from [a seg r] when [a/r]
    has no further one. *)
Lemma strip_viewer_segment (seg a r : string) :
  seg = "/blob/" \/ seg = "/raw/" ->
  ~ occurs "/blob/" (a +:+ "/" +:+ r) ->
  ~ occurs "/raw/" (a +:+ "/" +:+ r) ->
  PyStr.replace "/raw/" "/" (PyStr.replace "/blob/" "/" (a +:+ seg +:+ r)) = a +:+ "/" +:+ r.
Proof.
  intros Hseg Hb Hr. destruct Hseg; subst seg.
  - rewrite replace_segment by auto. now apply replace_absent.
  - rewrite replace_blob_keeps_raw by auto. now apply replace_segment; auto.
Qed.

(** [split("?")[0]] drops a query. *)
Lemma split_query (p q : string) :
  ~ occurs "?" p ->
  q = "" \/ (exists q', q = "?" +:+ q') ->
  PyStr.split "?" (p +:+ q) !! 0%nat = Some p.
Proof.
  intros Hp [-> | [q' ->]].
  - rewrite append_nil_r, split_absent by exact Hp. reflexivity.
  - rewrite split_copy.
    + rewrite split_match. simpl. now rewrite append_nil_r.
    + intros p1 p2 -> Hne. destruct p2 as [|c p2]; [contradiction|].
      destruct (String.prefix _ _) eqn:E; [exfalso | reflexivity].
      simpl in E. apply prefix_cons in E as [<- _].
      apply Hp. exists p1, p2. reflexivity.
Qed.

Lemma rewrite_location_viewer (pre a seg b q : string) :
  seg = "/blob/" \/ seg = "/raw/" ->
  ~ occurs "github.com/" pre ->
  ~ occurs "github.com/" (a +:+ seg +:+ b +:+ q) ->
  ~ occurs "/blob/" (a +:+ "/" +:+ b +:+ q) ->
  ~ occurs "/raw/" (a +:+ "/" +:+ b +:+ q) ->
  ~ occurs "?" (a +:+ "/" +:+ b) ->
  q = "" \/ (exists q', q = "?" +:+ q') ->
  rewrite_location (pre +:+ "github.com/" +:+ a +:+ seg +:+ b +:+ q)
  = inr ("https://raw.githubusercontent.com/" +:+
         PyStr.replace "%2F" "/" (a +:+ "/" +:+ b)).
Proof.
  intros Hseg Hpre Htail Hb Hr Hq Hquery. unfold rewrite_location.
  assert (Hin : PyStr.contains "github.com" (pre +:+ "github.com/" +:+ a +:+ seg +:+ b +:+ q) = true).
  { apply contains_occurs. exists pre, ("/" +:+ a +:+ seg +:+ b +:+ q). reflexivity. }
  rewrite Hin, split_host by assumption. cbn [lookup list_lookup].
  rewrite strip_viewer_segment by assumption.
  replace (a +:+ "/" +:+ b +:+ q) with ((a +:+ "/" +:+ b) +:+ q) by now rewrite !append_assoc.
  now rewrite split_query.
Qed.

Lemma rewrite_location_other (raw_url : string) :
  ~ occurs "github.com" raw_url -> rewrite_location raw_url = inr raw_url.
Proof.
  intros H. unfold rewrite_location. apply contains_false in H. now rewrite H.
Qed.

End Rewriting.

Section TextFacts.

Lemma ascii_not_continuation (b : ascii) :
  PyStr.byte_in 0 127 b = true -> PyStr.continuation b = false.
Proof.
  unfold PyStr.continuation, PyStr.byte_in. cbv zeta.
  rewrite andb_true_iff, andb_false_iff, !Nat.leb_le, !Nat.leb_gt. lia.
Qed.

Lemma lead2_not_continuation (b : ascii) :
  PyStr.byte_in 194 223 b = true -> PyStr.continuation b = false.
Proof.
  unfold PyStr.continuation, PyStr.byte_in. cbv zeta.
  rewrite andb_true_iff, andb_false_iff, !Nat.leb_le, !Nat.leb_gt. lia.
Qed.

Lemma lead3_bytes (b0 b1 : ascii) :
  PyStr.lead3 b0 b1 = true -> PyStr.continuation b0 = false /\ PyStr.continuation b1 = true.
Proof.
  unfold PyStr.lead3, PyStr.continuation, PyStr.byte_in, PyStr.is_byte. cbv zeta.
  rewrite !orb_true_iff, !andb_true_iff, andb_false_iff, !Nat.leb_le, !Nat.leb_gt,
    !Nat.eqb_eq. lia.
Qed.

Lemma lead4_bytes (b0 b1 : ascii) :
  PyStr.lead4 b0 b1 = true -> PyStr.continuation b0 = false /\ PyStr.continuation b1 = true.
Proof.
  unfold PyStr.lead4, PyStr.continuation, PyStr.byte_in, PyStr.is_byte. cbv zeta.
  rewrite !orb_true_iff, !andb_true_iff, andb_false_iff, !Nat.leb_le, !Nat.leb_gt,
    !Nat.eqb_eq. lia.
Qed.

(** On a well-formed text, [PyStr.take] is the slice by code points. *)
Lemma take_chars (n : nat) (s : string) (cs : list string) :
  PyStr.chars s = Some cs -> PyStr.take n s = PyStr.join (take n cs).
Proof.
  remember (String.length s) as k eqn:Hk.
  assert (Hle : (String.length s <= k)%nat) by lia. clear Hk.
  revert s Hle n cs. induction k as [|k IH]; intros s Hle n cs.
  { destruct s; [|simpl in Hle; lia]. intros [= <-]. now destruct n. }
  destruct s as [|b0 s0]; [intros [= <-]; now destruct n|].
  simpl in Hle. cbn [PyStr.chars].
  destruct (PyStr.byte_in 0 127 b0) eqn:H0.
  { destruct (PyStr.chars s0) as [cs0|] eqn:Hc; [|discriminate]. intros [= <-].
    cbn [PyStr.take]. rewrite (ascii_not_continuation _ H0).
    destruct n; [reflexivity|]. cbn. f_equal. apply IH; [lia | exact Hc]. }
  destruct s0 as [|b1 s1]; [discriminate|]. simpl in Hle.
  destruct (PyStr.byte_in 194 223 b0 && PyStr.continuation b1) eqn:H1.
  { apply andb_true_iff in H1 as [Hb0 Hb1].
    destruct (PyStr.chars s1) as [cs1|] eqn:Hc; [|discriminate]. intros [= <-].
    cbn [PyStr.take]. rewrite (lead2_not_continuation _ Hb0), Hb1.
    destruct n; [reflexivity|]. cbn. do 2 f_equal. apply IH; [lia | exact Hc]. }
  destruct s1 as [|b2 s2]; [discriminate|]. simpl in Hle.
  destruct (PyStr.lead3 b0 b1 && PyStr.continuation b2) eqn:H2.
  { apply andb_true_iff in H2 as [Hl Hb2]. apply lead3_bytes in Hl as [Hb0 Hb1].
    destruct (PyStr.chars s2) as [cs2|] eqn:Hc; [|discriminate]. intros [= <-].
    cbn [PyStr.take]. rewrite Hb0, Hb1, Hb2.
    destruct n; [reflexivity|]. cbn. do 3 f_equal. apply IH; [lia | exact Hc]. }
  destruct s2 as [|b3 s3]; [discriminate|]. simpl in Hle.
  destruct (PyStr.lead4 b0 b1 && PyStr.continuation b2 && PyStr.continuation b3) eqn:H3;
    [|discriminate].
  apply andb_true_iff in H3 as [H3 Hb3]. apply andb_true_iff in H3 as [Hl Hb2].
  apply lead4_bytes in Hl as [Hb0 Hb1].
  destruct (PyStr.chars s3) as [cs3|] eqn:Hc; [|discriminate]. intros [= <-].
  cbn [PyStr.take]. rewrite Hb0, Hb1, Hb2, Hb3.
  destruct n; [reflexivity|]. cbn. do 4 f_equal. apply IH; [lia | exact Hc].
Qed.

(** A visible ASCII character is a code point of its own, no carriage
    return and no white space. *)
Lemma visible_plain (c : ascii) :
  visible c = true ->
  PyStr.byte_in 0 127 c = true
  /\ String.eqb (PyStr.seq1 c) PyStr.CR = false
  /\ PyStr.is_space (PyStr.seq1 c) = false.
Proof.
  intros H. destruct c as [[|] [|] [|] [|] [|] [|] [|] [|]];
    vm_compute in H; try discriminate H; repeat split.
Qed.

Lemma chars_ascii (s : string) :
  forallb (PyStr.byte_in 0 127) (list_ascii_of_string s) = true ->
  PyStr.chars s = Some (PyStr.seq1 <$> list_ascii_of_string s).
Proof.
  induction s as [|c s IH]; [reflexivity|].
  cbn [list_ascii_of_string forallb PyStr.chars]. intros H.
  apply andb_true_iff in H as [Hc Hs]. now rewrite Hc, (IH Hs).
Qed.

Lemma universal_newlines_plain (cs : list string) :
  Forall (fun c => String.eqb c PyStr.CR = false) cs -> PyStr.universal_newlines cs = cs.
Proof.
  induction 1 as [|c cs Hc _ IH]; [reflexivity|].
  cbn [PyStr.universal_newlines]. now rewrite Hc, IH.
Qed.

Lemma lstrip_chars_plain (cs : list string) :
  Forall (fun c => PyStr.is_space c = false) cs -> PyStr.lstrip_chars cs = cs.
Proof. destruct 1 as [|c cs Hc _]; [reflexivity|]. cbn [PyStr.lstrip_chars]. now rewrite Hc. Qed.

Lemma strip_chars_plain (cs : list string) :
  Forall (fun c => PyStr.is_space c = false) cs -> PyStr.strip_chars cs = cs.
Proof.
  intros H. unfold PyStr.strip_chars.
  rewrite (lstrip_chars_plain cs H), lstrip_chars_plain, rev_involutive; [reflexivity|].
  now apply Forall_rev.
Qed.

Lemma join_seq1 (s : string) : PyStr.join (PyStr.seq1 <$> list_ascii_of_string s) = s.
Proof.
  induction s as [|c s IH]; [reflexivity|].
  change (String c (PyStr.join (PyStr.seq1 <$> list_ascii_of_string s)) = String c s).
  now rewrite IH.
Qed.

Lemma forallb_Forall {A} (p : A -> bool) (l : list A) :
  forallb p l = true <-> Forall (fun x => p x = true) l.
Proof.
  induction l as [|x l IH]; cbn [forallb]; [split; [constructor | reflexivity]|].
  rewrite andb_true_iff, Forall_cons, IH. reflexivity.
Qed.

(** A text of visible ASCII characters is read back from the state file as
    it was written. *)
Lemma visible_stored (s : string) :
  forallb visible (list_ascii_of_string s) = true -> stored_hash (Some s) = inr (Some s).
Proof.
  intros H. apply forallb_Forall in H.
  assert (Hall : Forall (fun c => PyStr.byte_in 0 127 c = true
                          /\ String.eqb (PyStr.seq1 c) PyStr.CR = false
                          /\ PyStr.is_space (PyStr.seq1 c) = false) (list_ascii_of_string s)).
  { eapply Forall_impl; [exact H|]. intros c Hc. now apply visible_plain. }
  unfold stored_hash, read_text. rewrite chars_ascii.
  - rewrite universal_newlines_plain, strip_chars_plain, join_seq1; [reflexivity| |].
    + apply Forall_fmap. eapply Forall_impl; [exact Hall|]. intros c Hc. apply Hc.
    + apply Forall_fmap. eapply Forall_impl; [exact Hall|]. intros c Hc. apply Hc.
  - apply forallb_Forall. eapply Forall_impl; [exact Hall|]. intros c Hc. apply Hc.
Qed.

End TextFacts.

(** * Facts about the daemon *)

Ltac facts :=
  repeat split; simpl; auto;
  try (repeat constructor; fail); try discriminate; try congruence.

Section TraceFacts.

Lemma failures_logged_app (t1 t2 : list event) :
  failures_logged t1 -> failures_logged t2 -> failures_logged (t1 ++ t2).
Proof.
  induction t1 as [|ev t1 IH]; intros H1 H2; [exact H2|].
  destruct ev as [| |u d o| | | | |]; simpl in *; auto.
  destruct o as [e|]; auto.
  destruct H1 as [H1 H1']. split; [|auto].
  destruct t1 as [|[] ?]; simpl; try contradiction. exact H1.
Qed.

Lemma download_events_quiet (tr : list event) :
  Forall download_event tr ->
  writes tr = [] /\ sleeps tr = [] /\ commands tr = [].
Proof.
  induction 1 as [|ev tr Hev _ IH]; [auto|].
  destruct ev as [| | | | |[]| |]; simpl in Hev; try contradiction; exact IH.
Qed.

Lemma publish_events_quiet (tr : list event) :
  Forall publish_event tr ->
  writes tr = [] /\ sleeps tr = [] /\ attempts tr = [] /\ requested tr = [].
Proof.
  induction 1 as [|ev tr Hev _ IH]; [auto|].
  destruct ev as [| | | | |[]| |]; simpl in Hev; try contradiction; exact IH.
Qed.

Lemma publish_events_retrieve_nothing (tr : list event) :
  Forall publish_event tr -> retrievals tr = [].
Proof.
  induction 1 as [|ev tr Hev _ IH]; [auto|].
  destruct ev as [| | | | |[]| |]; simpl in Hev; try contradiction; exact IH.
Qed.

Lemma retrievals_app (t1 t2 : list event) :
  retrievals (t1 ++ t2) = retrievals t1 ++ retrievals t2.
Proof. apply omap_app. Qed.

Lemma attempts_app (t1 t2 : list event) :
  attempts (t1 ++ t2) = attempts t1 ++ attempts t2.
Proof. apply omap_app. Qed.

Lemma state_file_spared_app {Ext} (env : Environment Ext) (t1 t2 : list event) :
  state_file_spared env (t1 ++ t2) <-> state_file_spared env t1 /\ state_file_spared env t2.
Proof. unfold state_file_spared. rewrite retrievals_app. apply Forall_app. Qed.

Lemma state_file_spared_quiet {Ext} (env : Environment Ext) (tr : list event) :
  retrievals tr = [] -> state_file_spared env tr.
Proof. unfold state_file_spared. intros ->. constructor. Qed.

(** The steps of a download: one request at most, to the resolved location. *)
Lemma download_steps_facts (raw_url : json) (dest : Path) (o : option exn) :
  Forall download_event (download_steps raw_url dest o)
  /\ failures_logged (download_steps raw_url dest o)
  /\ attempts (download_steps raw_url dest o) = []
  /\ retrievals (download_steps raw_url dest o)
     = match location raw_url with
       | inr (JStr url) => [(url, dest)]
       | _ => []
       end.
Proof.
  unfold download_steps. destruct (location raw_url) as [e|[]]; try destruct o; facts.
Qed.

(** The steps of a turn of the file loop. *)
Lemma file_steps_facts (f : json) (o : option exn) :
  Forall download_event (file_steps f o)
  /\ failures_logged (file_steps f o)
  /\ retrievals (file_steps f o) = option_list (expected_request f)
  /\ (file_steps f o <> [] ->
      Some <$> attempts (file_steps f o) = [target f]).
Proof.
  unfold file_steps, expected_request, target.
  destruct (subscript f "filename") as [e|[| | |name| |]]; try (facts; fail).
  destruct (subscript f "raw_url") as [e|raw_url]; try (facts; fail).
  destruct (download_steps_facts raw_url (InProjectRoot name) o) as (Hev & Hfl & Hat & Hrq).
  repeat split.
  - constructor; [exact I|]. apply Forall_app. split; [exact Hev | repeat constructor].
  - change (failures_logged ([EvMkdir (InProjectRoot name) None] ++
              download_steps raw_url (InProjectRoot name) o ++ [EvPrint (Updated (JStr name))])).
    repeat apply failures_logged_app; simpl; auto.
  - change (retrievals ([EvMkdir (InProjectRoot name) None] ++
              download_steps raw_url (InProjectRoot name) o ++ [EvPrint (Updated (JStr name))])
            = option_list match location raw_url with
                          | inr (JStr url) => Some (url, InProjectRoot name)
                          | _ => None
                          end).
    rewrite !retrievals_app, Hrq. destruct (location raw_url) as [e|[]]; reflexivity.
  - intros _.
    change (Some <$> attempts ([EvMkdir (InProjectRoot name) None] ++
              download_steps raw_url (InProjectRoot name) o ++ [EvPrint (Updated (JStr name))])
            = [Some (InProjectRoot name)]).
    rewrite !attempts_app, Hat. reflexivity.
Qed.

Lemma files_steps_facts (fs : list json) (os : list (option exn)) :
  Forall download_event (concat (zip_with file_steps fs os))
  /\ failures_logged (concat (zip_with file_steps fs os)).
Proof.
  revert os. induction fs as [|f fs IH]; intros [|o os]; try (split; [constructor | exact I]).
  cbn [zip_with concat]. destruct (file_steps_facts f o) as (Hev & Hfl & _).
  destruct (IH os) as [Hev' Hfl'].
  split; [apply Forall_app; auto | apply failures_logged_app; auto].
Qed.


End TraceFacts.

Section DaemonFacts.
Context {Ext : Type}.
Variable env : Environment Ext.
Variable cfg : Config.

(** The download helper: it raises only when [mkdir] does, and then it has
    done nothing else; otherwise it goes through the steps of a download. *)
Lemma safe_download_facts raw_url dest st :
  let r := _safe_download env raw_url dest st in
  Forall download_event (trace r)
  /\ attempts (trace r) = [dest]
  /\ failures_logged (trace r)
  /\ (state_file_spared env (trace r) -> commit_file (final r) = commit_file st)
  /\ ((exists e, (mkdir_parents env dest (ext st)).1 = Some e
                 /\ outcome r = inl e /\ trace r = [EvMkdir dest (Some e)])
      \/ ((mkdir_parents env dest (ext st)).1 = None
          /\ outcome r = inr tt
          /\ exists o, trace r = EvMkdir dest None :: download_steps raw_url dest o)).
Proof.
  unfold _safe_download, bind, call_mkdir, outcome, final, trace, download_steps.
  destruct (mkdir_parents env dest (ext st)) as [[e|] e1]; simpl.
  { facts; try (left; eauto). }
  unfold try_except, bind, lift.
  destruct (location raw_url) as [e|url]; simpl.
  { facts; try (right; facts; exists None; reflexivity). }
  destruct url; simpl; try (facts; try (right; facts; exists None; reflexivity); fail).
  unfold call_urlretrieve; simpl.
  destruct (urlretrieve env s dest e1) as [[e|] e2]; simpl;
    facts; try (intros H; apply Forall_cons in H as [H _]; apply H);
    try (right; do 2 (split; [reflexivity|]);
         first [exists None; reflexivity | eexists (Some _); reflexivity]).
Qed.

End DaemonFacts.

Section LoopFacts.
Context {Ext : Type}.
Variable env : Environment Ext.

(** One turn of the file loop: nothing at all for a descriptor that is not
    classified added or modified; otherwise either an exception, raised
    before anything was requested, or the steps of a completed turn. *)
Lemma sync_file_facts f (st : State Ext) :
  let r := sync_file env f st in
  Forall download_event (trace r)
  /\ failures_logged (trace r)
  /\ (state_file_spared env (trace r) -> commit_file (final r) = commit_file st)
  /\ (wanted f = false -> trace r = [])
  /\ (wanted f = true ->
      (outcome r <> inr tt /\ retrievals (trace r) = []
       /\ (attempts (trace r) = [] \/ Some <$> attempts (trace r) = [target f]))
      \/ (outcome r = inr tt /\ exists o, trace r = file_steps f o /\ file_steps f o <> []))
  /\ (well_formed f = true -> mkdir_succeeds env -> outcome r = inr tt).
Proof.
  unfold sync_file, wanted, target, well_formed, file_steps, outcome, final, trace.
  destruct f as [| | | | |d]; try (unfold bind, lift, raise; simpl; facts; fail).
  unfold bind, lift, ret, raise, print, emit. cbn -[_safe_download download_steps].
  destruct (in_added_modified (default JNull (d !! "status"))) as [e|[|]];
    cbn -[_safe_download download_steps]; [facts | | facts].
  destruct (d !! "filename") as [name|]; cbn -[_safe_download download_steps];
    [|facts; left; facts].
  destruct name as [| | |s| |]; cbn -[_safe_download download_steps];
    try (facts; left; facts; fail).
  destruct (d !! "raw_url") as [u|]; cbn -[_safe_download download_steps];
    [|facts; left; facts].
  pose proof (safe_download_facts env u (InProjectRoot s) st) as (Hev & Hat & Hfl & Hc & Hcase).
  destruct (_safe_download env u (InProjectRoot s) st) as [[o s1] t1];
    unfold outcome, final, trace in *; cbn [fst snd] in *.
  destruct Hcase as [(e & Hmk & -> & ->) | (Hmk & -> & o' & ->)].
  - facts; try (left; facts).
  - cbn [app]. split; [|split; [|split; [|split; [|split]]]].
    + constructor; [exact I|]. apply Forall_cons in Hev as [_ Hev].
      apply Forall_app. split; [exact Hev | repeat constructor].
    + change (failures_logged
                ((EvMkdir (InProjectRoot s) None :: download_steps u (InProjectRoot s) o')
                 ++ [EvPrint (Updated (JStr s))])).
      apply failures_logged_app; simpl; auto.
    + intros H.
      change (state_file_spared env
                ((EvMkdir (InProjectRoot s) None :: download_steps u (InProjectRoot s) o')
                 ++ [EvPrint (Updated (JStr s))])) in H.
      apply state_file_spared_app in H as [H _]. auto.
    + discriminate.
    + intros _. right. split; [reflexivity|]. exists o'. split; [reflexivity | discriminate].
    + intros _ Hm. reflexivity.
Qed.


(** The whole file loop.  It calls the helper for a prefix of the added or
    modified descriptors, in order, and requests a prefix of what they stand
    for; when it completes, it has gone through the steps of every one of
    them.  It leaves the state file alone unless a retrieval is aimed at
    it. *)
Lemma sync_files_facts files (st : State Ext) :
  let r := for_each (sync_file env) files st in
  Forall download_event (trace r)
  /\ failures_logged (trace r)
  /\ (state_file_spared env (trace r) -> commit_file (final r) = commit_file st)
  /\ (exists k, Some <$> attempts (trace r) = target <$> take k (List.filter wanted files))
  /\ (exists k, retrievals (trace r)
                = omap expected_request (take k (List.filter wanted files)))
  /\ (outcome r = inr tt ->
      exists outcomes,
        length outcomes = length (List.filter wanted files)
        /\ trace r = concat (zip_with file_steps (List.filter wanted files) outcomes)
        /\ Some <$> attempts (trace r) = target <$> List.filter wanted files
        /\ retrievals (trace r) = omap expected_request (List.filter wanted files))
  /\ (Forall (fun f => well_formed f = true) files -> mkdir_succeeds env ->
      outcome r = inr tt).
Proof.
  revert st. induction files as [|f files IH]; intros st.
  - unfold outcome, final, trace. simpl. facts; try (exists 0%nat; reflexivity).
    intros _. exists []. facts.
  - cbn [for_each List.filter]. unfold bind.
    pose proof (sync_file_facts f st) as (Hev & Hfl & Hc & Hno & Hyes & Hok).
    destruct (sync_file env f st) as [[[e|[]] s1] t1];
      unfold outcome, final, trace in *; cbn [fst snd] in *.
    + repeat split; auto; try discriminate.
      * destruct (wanted f) eqn:Hw.
        -- destruct (Hyes eq_refl) as [(_ & _ & [-> | Hat]) | (Hbad & _)]; [| |discriminate].
           ++ exists 0%nat. reflexivity.
           ++ exists 1%nat. exact Hat.
        -- rewrite (Hno eq_refl). exists 0%nat. reflexivity.
      * exists 0%nat. destruct (wanted f) eqn:Hw.
        -- destruct (Hyes eq_refl) as [(_ & Hrq & _) | (Hbad & _)]; [exact Hrq | discriminate].
        -- rewrite (Hno eq_refl). reflexivity.
      * intros HF Hmk. inversion HF; subst. auto.
    + specialize (IH s1) as (Hev' & Hfl' & Hc' & [k Hk] & [k' Hk'] & Hall & Hok').
      destruct (for_each (sync_file env) files s1) as [[o s2] t2];
        unfold outcome, final, trace in *; cbn [fst snd] in *.
      assert (Hone : exists os,
        length os = length (if wanted f then [f] else [])
        /\ t1 = concat (zip_with file_steps (if wanted f then [f] else []) os)
        /\ Some <$> attempts t1 = target <$> (if wanted f then [f] else [])
        /\ retrievals t1 = omap expected_request (if wanted f then [f] else [])).
      { destruct (wanted f) eqn:Hw.
        - destruct (Hyes eq_refl) as [(Hbad & _) | (_ & o' & -> & Hne)]; [congruence|].
          destruct (file_steps_facts f o') as (_ & _ & Hrq & Hat).
          exists [o']. cbn [zip_with concat]. rewrite app_nil_r.
          repeat split; [exact (Hat Hne)|]. rewrite Hrq. cbn.
          destruct (expected_request f); reflexivity.
        - rewrite (Hno eq_refl). exists []. repeat split. }
      destruct Hone as (os & Hlen & Ht1 & Hat & Hrq).
      repeat split.
      * apply Forall_app; auto.
      * apply failures_logged_app; auto.
      * intros H. apply state_file_spared_app in H as [H1 H2]. rewrite Hc', Hc; auto.
      * rewrite attempts_app, fmap_app, Hat, Hk.
        destruct (wanted f); [exists (S k) | exists k]; reflexivity.
      * rewrite retrievals_app, Hrq, Hk'.
        destruct (wanted f); [exists (S k') | exists k']; cbn;
          [destruct (expected_request f)|]; reflexivity.
      * intros ->. destruct (Hall eq_refl) as (os' & Hlen' & Ht2 & Hat' & Hrq').
        exists (os ++ os'). repeat split.
        -- rewrite length_app, Hlen, Hlen'. destruct (wanted f); reflexivity.
        -- rewrite Ht1, Ht2. destruct (wanted f); destruct os as [|o1 [|? ?]];
             try discriminate; cbn; rewrite ?app_nil_r; reflexivity.
        -- rewrite attempts_app, fmap_app, Hat, Hat'. destruct (wanted f); reflexivity.
        -- rewrite retrievals_app, Hrq, Hrq'. destruct (wanted f); cbn;
             [destruct (expected_request f)|]; reflexivity.
      * intros HF Hmk. inversion HF; subst. auto.
Qed.

End LoopFacts.

Section PublisherFacts.
Context {Ext : Type}.
Variable env : Environment Ext.
Variable cfg : Config.

Lemma is_digit_digit (d : nat) : (d < 10)%nat -> is_digit (digit d) = true.
Proof. intros H. do 10 (destruct d as [|d]; [reflexivity|]). lia. Qed.

Lemma is_digit_mod10 (n : nat) : is_digit (digit (n mod 10)) = true.
Proof. apply is_digit_digit, Nat.mod_upper_bound. discriminate. Qed.

Lemma strftime_shape (dt : datetime) : is_timestamp (strftime dt) = true.
Proof.
  unfold strftime, four_digits, two_digits, is_timestamp.
  cbn [String.append list_ascii_of_string forallb].
  rewrite !is_digit_mod10. reflexivity.
Qed.

(** The publisher never raises, leaves the state file alone, and only runs
    commands and prints its own two lines. *)
Lemma git_push_auto_facts (st : State Ext) :
  let r := _git_push_auto env cfg st in
  outcome r = inr tt
  /\ commit_file (final r) = commit_file st
  /\ Forall publish_event (trace r).
Proof.
  unfold _git_push_auto, try_except, bind, call_utcnow, outcome, final, trace.
  destruct (utcnow env (ext st)) as [now e0].
  cbn [cmds for_each]. unfold bind, call_run, ret, print, emit. cbn [ext commit_file].
  repeat match goal with
  | |- context [subprocess_run env ?c ?t ?e] =>
      destruct (subprocess_run env c t e) as [[?|?] ?]; cbn [fst snd ext commit_file app]
  end; facts.
Qed.

End PublisherFacts.

Section CycleFacts.
Context {Ext : Type}.
Variable env : Environment Ext.
Variable cfg : Config.

(** What a turn of the loop can do: either it writes nothing, or it fetched
    a commit with a string hash, went through the steps of every added or
    modified descriptor and then wrote that hash. *)
Lemma cycle_facts (st : State Ext) :
  let r := cycle env cfg st in
  outcome r = inr tt
  /\ sleeps (trace r) = []
  /\ exists tr,
      trace r = EvUrlopen (commit_url cfg) (_headers cfg) 30 (fetched env cfg st) :: tr
      /\ ((writes tr = []
           /\ (state_file_spared env tr -> commit_file (final r) = commit_file st)) \/
          (exists d sha prev files outcomes downloads rest,
              fetched env cfg st = inr (JObj d)
              /\ d !! "sha" = Some (JStr sha)
              /\ stored_hash (commit_file st) = inr prev
              /\ eq_prev (JStr sha) prev = false
              /\ py_iter (files_or_empty (default JNull (d !! "files"))) = inr files
              /\ length outcomes = length (List.filter wanted files)
              /\ downloads = concat (zip_with file_steps (List.filter wanted files) outcomes)
              /\ tr = downloads ++ EvWriteText sha :: EvPrint SyncComplete :: rest
              /\ Some <$> attempts downloads = target <$> List.filter wanted files
              /\ retrievals downloads = omap expected_request (List.filter wanted files)
              /\ Forall publish_event rest
              /\ (AUTO_PUSH cfg = false -> rest = [])
              /\ commit_file (final r) = Some sha)).
Proof.
  unfold cycle, try_except, cycle_body, _fetch_commit, call_urlopen, fetched,
    outcome, final, trace, bind, lift, ret, raise, print, emit, read_prev.
  cbn -[for_each _git_push_auto commit_url _headers py_iter files_or_empty eq_prev
        stored_hash sleeps writes attempts state_file_spared].
  destruct (urlopen_json env (commit_url cfg) (_headers cfg) 30 (ext st))
    as [[e|commit] e0]; cbn -[for_each _git_push_auto py_iter files_or_empty eq_prev
                              stored_hash sleeps writes attempts commit_url _headers
                              state_file_spared].
  { facts. eexists. facts. }
  destruct commit as [| | | | |d];
    cbn -[for_each _git_push_auto py_iter files_or_empty eq_prev stored_hash
          sleeps writes attempts commit_url _headers state_file_spared];
    try (facts; eexists; facts; fail).
  destruct (stored_hash (commit_file st)) as [e|prev] eqn:Hprev;
    cbn -[for_each _git_push_auto py_iter files_or_empty eq_prev
          sleeps writes attempts commit_url _headers state_file_spared].
  { facts. eexists. facts. }
  destruct (eq_prev (default JNull (d !! "sha")) prev) eqn:Heq.
  { destruct (default JNull (d !! "sha")); cbn -[commit_url _headers state_file_spared];
      facts; eexists; facts. }
  destruct (py_iter (files_or_empty (default JNull (d !! "files")))) as [e|files] eqn:Hit;
    cbn -[for_each _git_push_auto eq_prev sleeps writes attempts commit_url _headers
          state_file_spared].
  { facts. eexists. facts. }
  pose proof (sync_files_facts env files (mkState e0 (commit_file st)))
    as (Hev & Hfl & Hc & _ & _ & Hall & _).
  destruct (for_each (sync_file env) files (mkState e0 (commit_file st)))
    as [[[e|[]] s1] t1]; unfold outcome, final, trace in *;
    cbn -[for_each _git_push_auto eq_prev sleeps writes attempts commit_url _headers
          state_file_spared] in *;
    destruct (download_events_quiet _ Hev) as (Hw & Hs & _).
  { unfold sleeps, writes in *. csimpl. rewrite !omap_app, Hs. split; [reflexivity|].
    split; [reflexivity|]. eexists. split; [reflexivity|]. left. rewrite omap_app, Hw.
    split; [reflexivity|]. intros H. apply state_file_spared_app in H as [H _]. auto. }
  destruct (d !! "sha") as [sha|] eqn:Hsha; cbn [default] in *;
    [destruct sha as [| | |sha| |]|];
    cbn -[for_each _git_push_auto eq_prev sleeps writes attempts commit_url _headers
          state_file_spared];
    try (unfold sleeps, writes in *; csimpl; rewrite ?app_nil_r, !omap_app, ?Hs;
         (split; [reflexivity|]); (split; [reflexivity|]);
         eexists; (split; [reflexivity|]); left; rewrite !omap_app, ?Hw;
         (split; [reflexivity|]); intros H; apply state_file_spared_app in H as [H _];
         auto; fail).
  destruct (Hall eq_refl) as (outcomes & Hlen & Hsteps & Hat & Hrq).
  destruct (AUTO_PUSH cfg) eqn:Hpush.
  - pose proof (git_push_auto_facts env cfg (mkState (ext s1) (Some sha))) as (Ho & Hcf & Hpe).
    destruct (_git_push_auto env cfg (mkState (ext s1) (Some sha))) as [[o s2] t2];
      unfold outcome, final, trace in *; cbn [fst snd commit_file] in *. subst o.
    destruct (publish_events_quiet _ Hpe) as (Hw2 & Hs2 & _).
    split; [reflexivity|]. split.
    { unfold sleeps in *. csimpl. rewrite omap_app, Hs. csimpl. exact Hs2. }
    eexists. split; [reflexivity|]. right.
    exists d, sha, prev, files, outcomes, t1, t2. facts.
  - cbn -[sleeps commit_url _headers]. split; [reflexivity|]. split.
    { unfold sleeps in *. csimpl. rewrite omap_app, Hs. reflexivity. }
    eexists. split; [reflexivity|]. right.
    exists d, sha, prev, files, outcomes, t1, []. facts.
Qed.

End CycleFacts.

Section SyncFacts.
Context {Ext : Type}.
Variable env : Environment Ext.
Variable cfg : Config.


(** A turn that finds a new commit: the commit request, the file loop, and
    then either the persist step, followed by the publisher when push is
    enabled, or the error report. *)
Lemma cycle_new_commit (st : State Ext) d prev files :
  fetched env cfg st = inr (JObj d) ->
  stored_hash (commit_file st) = inr prev ->
  eq_prev (default JNull (d !! "sha")) prev = false ->
  py_iter (files_or_empty (default JNull (d !! "files"))) = inr files ->
  let l := for_each (sync_file env) files (after_fetch env cfg st) in
  let r := cycle env cfg st in
  exists rest,
    trace r = EvUrlopen (commit_url cfg) (_headers cfg) 30 (inr (JObj d)) :: trace l ++ rest
    /\ attempts rest = [] /\ requested rest = [] /\ retrievals rest = []
    /\ (forall e, outcome l = inl e ->
          rest = [EvPrint (Error e); EvPrintExc]
          /\ commit_file (final r) = commit_file (final l))
    /\ (forall sha, outcome l = inr tt -> d !! "sha" = Some (JStr sha) ->
          exists push,
            rest = EvWriteText sha :: EvPrint SyncComplete :: push
            /\ Forall publish_event push
            /\ push = (if AUTO_PUSH cfg
                       then trace (_git_push_auto env cfg (mkState (ext (final l)) (Some sha)))
                       else [])
            /\ commit_file (final r) = Some sha)
    /\ (outcome l = inr tt -> (forall sha, d !! "sha" <> Some (JStr sha)) ->
          rest = [EvPrint (Error TypeError); EvPrintExc]
          /\ commit_file (final r) = commit_file (final l)).
Proof.
  unfold fetched, after_fetch. intros Hfetch Hprev Heq Hit.
  unfold cycle, try_except, cycle_body, _fetch_commit, call_urlopen,
    outcome, final, trace, bind, lift, ret, raise, print, emit, read_prev.
  cbn -[for_each _git_push_auto commit_url _headers py_iter files_or_empty eq_prev
        stored_hash attempts requested retrievals].
  destruct (urlopen_json env (commit_url cfg) (_headers cfg) 30 (ext st))
    as [o e0]; cbn [fst snd] in *. subst o.
  cbn -[for_each _git_push_auto py_iter files_or_empty eq_prev stored_hash
        attempts requested retrievals commit_url _headers].
  rewrite Hprev.
  cbn -[for_each _git_push_auto py_iter files_or_empty eq_prev
        attempts requested retrievals commit_url _headers].
  rewrite Heq, Hit.
  cbn -[for_each _git_push_auto eq_prev attempts requested retrievals commit_url _headers].
  destruct (for_each (sync_file env) files (mkState e0 (commit_file st)))
    as [[[e|[]] s1] t1];
    cbn -[_git_push_auto eq_prev attempts requested retrievals commit_url _headers] in *.
  { rewrite ?app_nil_r. eexists. split; [reflexivity|]. facts. }
  destruct (d !! "sha") as [sha|] eqn:Hsha; cbn [default from_option] in *; unfold id in *;
    [destruct sha as [| | |sha| |]|];
    cbn -[_git_push_auto eq_prev attempts requested retrievals commit_url _headers];
    rewrite ?app_nil_r;
    try (eexists; (split; [reflexivity|]); facts; fail).
  destruct (AUTO_PUSH cfg) eqn:Hpush.
  - pose proof (git_push_auto_facts env cfg (mkState (ext s1) (Some sha))) as (Ho & Hcf & Hpe).
    destruct (_git_push_auto env cfg (mkState (ext s1) (Some sha))) as [[o s2] t2] eqn:Hg;
      unfold outcome, final, trace in *; cbn [fst snd commit_file] in *. subst o.
    destruct (publish_events_quiet _ Hpe) as (_ & _ & Hat & Hrq).
    pose proof (publish_events_retrieve_nothing _ Hpe) as Hrt.
    eexists. split; [reflexivity|]. repeat split; auto; try discriminate.
    all: try (exfalso; match goal with
                       | H : forall s, _ <> _ |- _ => exact (H sha eq_refl)
                       end).
    intros sha' _ [= <-]. exists t2. facts. now rewrite Hg.
  - eexists. split; [reflexivity|]. repeat split; auto; try discriminate.
    all: try (exfalso; match goal with
                       | H : forall s, _ <> _ |- _ => exact (H sha eq_refl)
                       end).
    intros sha' _ [= <-]. exists []. facts.
Qed.

(** A turn against an unchanged head. *)
Lemma cycle_unchanged (st : State Ext) d (sha : string) :
  fetched env cfg st = inr (JObj d) ->
  d !! "sha" = Some (JStr sha) ->
  stored_hash (commit_file st) = inr (Some sha) ->
  cycle env cfg st
  = (inr tt, after_fetch env cfg st,
     [EvUrlopen (commit_url cfg) (_headers cfg) 30 (inr (JObj d));
      EvPrint (NoNewCommits (PyStr.take 8 sha))]).
Proof.
  intros Hfetch Hsha Hprev. unfold fetched, after_fetch in *.
  unfold cycle, try_except, cycle_body, _fetch_commit, call_urlopen, bind, lift, ret,
    read_prev, print, emit.
  destruct (urlopen_json env (commit_url cfg) (_headers cfg) 30 (ext st)) as [o e0].
  cbn [fst snd] in *. subst o. cbn [dict_get commit_file]. rewrite Hsha, Hprev.
  cbn [default from_option eq_prev]. unfold id.
  cbn [eq_prev]. rewrite String.eqb_refl. reflexivity.
Qed.

(** The loop: every turn ends normally and is followed by one sleep. *)
Lemma loop_step (n : nat) (st : State Ext) :
  trace (loop env cfg (S n) st)
  = trace (cycle env cfg st) ++
    EvSleep (INTERVAL cfg) :: trace (loop env cfg n (final (cycle env cfg st))).
Proof.
  cbn [loop]. pose proof (cycle_facts env cfg st) as (Ho & _).
  unfold bind, sleep, emit, outcome, final, trace in *.
  destruct (cycle env cfg st) as [[o s1] t1]. cbn [fst snd] in *. subst o.
  destruct (loop env cfg n s1) as [[o2 s2] t2]. reflexivity.
Qed.

Lemma loop_runs (n : nat) (st : State Ext) :
  outcome (loop env cfg n st) = inr tt
  /\ sleeps (trace (loop env cfg n st)) = replicate n (INTERVAL cfg).
Proof.
  revert st. induction n as [|n IH]; intros st; [split; reflexivity|].
  split.
  - cbn [loop]. pose proof (cycle_facts env cfg st) as (Ho & _).
    unfold bind, sleep, emit, outcome in *.
    destruct (cycle env cfg st) as [[o s1] t1]. cbn [fst snd] in *. subst o.
    destruct (IH s1) as [Ho _]. unfold outcome in Ho.
    destruct (loop env cfg n s1) as [[o2 s2] t2]. exact Ho.
  - rewrite loop_step. pose proof (cycle_facts env cfg st) as (_ & Hs & _).
    unfold sleeps in *. rewrite omap_app, Hs. csimpl. f_equal. apply IH.
Qed.

End SyncFacts.

(** The [mkdir] of [_safe_download] stands before its [try]: when it raises,
    the exception leaves the helper and ends the cycle at the handler of the
    loop, without a write. *)
Lemma mkdir_failure_escapes :
  trace (cycle readonly_env quiet_config (mkState tt (Some "0000")))
  = [ EvUrlopen "https://api.github.com/repos/o/r/commits/main" [] 30
        (inr (JObj sample_commit));
      EvMkdir (InProjectRoot "a.txt") (Some (OtherError "[Errno 30] Read-only file system"));
      EvPrint (Error (OtherError "[Errno 30] Read-only file system"));
      EvPrintExc ].
Proof. vm_compute. reflexivity. Qed.

(** All [/raw/] and [/blob/] segments are removed, and the text after a
    second host marker is cut off. *)
Lemma rewrite_location_greedy :
  rewrite_location "https://github.com/o/r/raw/main/vendor/github.com/pkg/x.go"
  = inr "https://raw.githubusercontent.com/o/r/main/vendor/"
  /\ rewrite_location "https://github.com/o/r/blob/main/a/blob/raw/b.txt"
     = inr "https://raw.githubusercontent.com/o/r/main/a/b.txt".
Proof. split; vm_compute; reflexivity. Qed.

(** * The claims *)





Lemma safe_download_requests {Ext} (env : Environment Ext) (u url : string)
    (dest : Path) (st : State Ext) :
  rewrite_location u = inr url ->
  (mkdir_parents env dest (ext st)).1 = None ->
  requested (trace (_safe_download env (JStr u) dest st)) = [url].
Proof.
  intros Hloc Hmk.
  unfold _safe_download, try_except, bind, lift, call_mkdir, retrieve, call_urlretrieve,
    print, emit, location, trace.
  rewrite Hloc. destruct (mkdir_parents env dest (ext st)) as [r e1].
  cbn [fst] in Hmk. subst r. cbn.
  destruct (urlretrieve env url dest e1) as [[e|] e2]; reflexivity.
Qed.

(** C3, as stated, fails in two ways.  A viewer URL of another host is not
    rewritten at all, and a path that has a directory named [raw] (or
    [blob]) loses that directory. *)
Lemma viewer_rewrite_counterexample :
  requested (trace (_safe_download calm_env
      (JStr "https://gitlab.com/o/r/blob/main/a.txt") (InProjectRoot "a.txt")
      (mkState tt None)))
  = ["https://gitlab.com/o/r/blob/main/a.txt"]
  /\ requested (trace (_safe_download calm_env
      (JStr "https://github.com/o/r/blob/main/docs/raw/a.txt")
      (InProjectRoot "docs/raw/a.txt") (mkState tt None)))
     = ["https://raw.githubusercontent.com/o/r/main/docs/a.txt"]
  /\ "https://raw.githubusercontent.com/o/r/main/docs/a.txt"
     <> "https://raw.githubusercontent.com/o/r/main/docs/raw/a.txt".
Proof. split; [|split]; [vm_compute; reflexivity .. | discriminate]. Qed.

(** C3, amended. For a location [pre github.com/ a seg b q] where [seg] is
    [/blob/] or [/raw/], [a] is [owner/repo], [b] is [branch/path], [q] is
    empty or a query, and neither the host marker [github.com/] nor a viewer
    segment occurs anywhere else, the helper requests
    [https://raw.githubusercontent.com/a/b] with [%2F] decoded to [/]. *)
Theorem viewer_url_rewritten {Ext} (env : Environment Ext) (dest : Path)
    (st : State Ext) (pre a seg b q : string) :
  seg = "/blob/" \/ seg = "/raw/" ->
  ~ occurs "github.com/" pre ->
  ~ occurs "github.com/" (a +:+ seg +:+ b +:+ q) ->
  ~ occurs "/blob/" (a +:+ "/" +:+ b +:+ q) ->
  ~ occurs "/raw/" (a +:+ "/" +:+ b +:+ q) ->
  ~ occurs "?" (a +:+ "/" +:+ b) ->
  q = "" \/ (exists q', q = "?" +:+ q') ->
  (mkdir_parents env dest (ext st)).1 = None ->
  requested (trace (_safe_download env
      (JStr (pre +:+ "github.com/" +:+ a +:+ seg +:+ b +:+ q)) dest st))
  = ["https://raw.githubusercontent.com/" +:+ PyStr.replace "%2F" "/" (a +:+ "/" +:+ b)].
Proof.
  intros. apply safe_download_requests; [|assumption].
  now apply rewrite_location_viewer.
Qed.

Lemma viewer_url_rewritten_witness :
  requested (trace (_safe_download calm_env
      (JStr "https://github.com/o/r/raw/abc/d%2Fc.txt?raw=true")
      (InProjectRoot "d/c.txt") (mkState tt None)))
  = ["https://raw.githubusercontent.com/o/r/abc/d/c.txt"].
Proof.
  apply (viewer_url_rewritten calm_env (InProjectRoot "d/c.txt") (mkState tt None)
           "https://" "o/r" "/raw/" "abc/d%2Fc.txt" "?raw=true").
  - right. reflexivity.
  - apply contains_false. reflexivity.
  - apply contains_false. reflexivity.
  - apply contains_false. reflexivity.
  - apply contains_false. reflexivity.
  - apply contains_false. reflexivity.
  - right. exists "raw=true". reflexivity.
  - reflexivity.
Defined.

(** C4, as stated, fails: a location on [github.com] that is no blob or raw
    viewer URL is still rewritten (host, path and query all change), and one
    that has the host without a following [/] is not requested at all. *)
Lemma verbatim_counterexample :
  requested (trace (_safe_download calm_env
      (JStr "https://api.github.com/repos/o/r/contents/a.txt?ref=main")
      (InProjectRoot "a.txt") (mkState tt None)))
  = ["https://raw.githubusercontent.com/repos/o/r/contents/a.txt"]
  /\ requested (trace (_safe_download calm_env
      (JStr "https://github.com") (InProjectRoot "a.txt") (mkState tt None)))
     = [].
Proof. split; vm_compute; reflexivity. Qed.

(** C4, amended. A location in which [github.com] does not occur is
    requested exactly as given. *)
Theorem other_location_verbatim {Ext} (env : Environment Ext) (dest : Path)
    (st : State Ext) (raw_url : string) :
  ~ occurs "github.com" raw_url ->
  (mkdir_parents env dest (ext st)).1 = None ->
  requested (trace (_safe_download env (JStr raw_url) dest st)) = [raw_url].
Proof.
  intros Hno Hmk. apply safe_download_requests; [|assumption].
  now apply rewrite_location_other.
Qed.

Lemma other_location_verbatim_witness :
  requested (trace (_safe_download calm_env
      (JStr "https://raw.githubusercontent.com/o/r/main/a.txt?token=x")
      (InProjectRoot "a.txt") (mkState tt None)))
  = ["https://raw.githubusercontent.com/o/r/main/a.txt?token=x"].
Proof.
  apply (other_location_verbatim calm_env).
  - apply contains_false. reflexivity.
  - reflexivity.
Defined.



(** C6. When the commit request raises, the cycle does nothing but report
    the error: no download, no write, the state file as it was; the loop
    then sleeps and starts the next turn with a new commit request.  No
    turn ever raises, so [n] turns of the loop always reach [n] sleeps. *)
Theorem fetch_failure_skips_cycle {Ext} (env : Environment Ext) (cfg : Config)
    (st : State Ext) (e : exn) :
  fetched env cfg st = inl e ->
  let r := cycle env cfg st in
  trace r = [EvUrlopen (commit_url cfg) (_headers cfg) 30 (inl e);
             EvPrint (Error e); EvPrintExc]
  /\ outcome r = inr tt
  /\ commit_file (final r) = commit_file st
  /\ (forall n, exists o tr,
        trace (loop env cfg (S (S n)) st)
        = trace r ++ EvSleep (INTERVAL cfg)
          :: EvUrlopen (commit_url cfg) (_headers cfg) 30 o :: tr)
  /\ (forall st', outcome (cycle env cfg st') = inr tt)
  /\ (forall n st', outcome (loop env cfg n st') = inr tt
                    /\ sleeps (trace (loop env cfg n st')) = replicate n (INTERVAL cfg)).
Proof.
  intros Hfetch r.
  assert (Hr : r = (inr tt, after_fetch env cfg st,
                    [EvUrlopen (commit_url cfg) (_headers cfg) 30 (inl e);
                     EvPrint (Error e); EvPrintExc])).
  { subst r. unfold fetched, after_fetch in *.
    unfold cycle, try_except, cycle_body, _fetch_commit, call_urlopen, bind, print, emit.
    destruct (urlopen_json env (commit_url cfg) (_headers cfg) 30 (ext st)) as [o e0].
    cbn [fst snd] in *. subst o. reflexivity. }
  repeat split.
  - now rewrite Hr.
  - now rewrite Hr.
  - now rewrite Hr.
  - intros n. rewrite loop_step. fold r. rewrite loop_step.
    destruct (cycle_facts env cfg (final r)) as (_ & _ & tr & -> & _).
    eexists _, _. reflexivity.
  - intros st'. apply cycle_facts.
  - apply loop_runs.
  - apply loop_runs.
Qed.

Lemma fetch_failure_skips_cycle_witness :
  trace (cycle offline_env quiet_config (mkState tt (Some "0000")))
  = [EvUrlopen "https://api.github.com/repos/o/r/commits/main" [] 30
       (inl (OtherError "timed out"));
     EvPrint (Error (OtherError "timed out")); EvPrintExc].
Proof.
  apply (fetch_failure_skips_cycle offline_env quiet_config (mkState tt (Some "0000"))
           (OtherError "timed out")).
  reflexivity.
Defined.

(** C7. When the fetched hash equals the one read from the state file (its
    text decoded, with universal newlines, and stripped), the cycle only
    prints [No new commits] with the first eight characters of the hash:
    nothing is downloaded or written and the state file is as before; so the
    next cycle against the same head does the same. *)
Theorem unchanged_head_is_noop {Ext} (env : Environment Ext) (cfg : Config)
    (st : State Ext) d (sha : string) :
  fetched env cfg st = inr (JObj d) ->
  d !! "sha" = Some (JStr sha) ->
  stored_hash (commit_file st) = inr (Some sha) ->
  let noop := [EvUrlopen (commit_url cfg) (_headers cfg) 30 (inr (JObj d));
               EvPrint (NoNewCommits (PyStr.take 8 sha))] in
  let r := cycle env cfg st in
  trace r = noop
  /\ outcome r = inr tt
  /\ commit_file (final r) = commit_file st
  /\ (fetched env cfg (final r) = inr (JObj d) ->
      trace (cycle env cfg (final r)) = noop
      /\ commit_file (final (cycle env cfg (final r))) = commit_file st).
Proof.
  intros Hfetch Hsha Hprev noop r.
  assert (Hr : r = (inr tt, after_fetch env cfg st, noop))
    by (apply cycle_unchanged; assumption).
  rewrite Hr. unfold trace, outcome, final. cbn [fst snd].
  do 3 (split; [reflexivity|]).
  intros Hfetch2. rewrite (cycle_unchanged env cfg (after_fetch env cfg st) d sha) by assumption.
  split; reflexivity.
Qed.

Lemma unchanged_head_is_noop_witness :
  let st := mkState tt (Some padded_hash) in
  trace (cycle calm_env quiet_config st)
  = [EvUrlopen "https://api.github.com/repos/o/r/commits/main" [] 30
       (inr (JObj (commit_dict "0000" [])));
     EvPrint (NoNewCommits "0000")]
  /\ commit_file (final (cycle calm_env quiet_config st)) = commit_file st.
Proof.
  intros st.
  destruct (unchanged_head_is_noop calm_env quiet_config st
              (commit_dict "0000" []) "0000") as (Htr & _ & Hc & _).
  - reflexivity.
  - vm_compute. reflexivity.
  - reflexivity.
  - split; [exact Htr | exact Hc].
Defined.

(** C8, as stated, fails on the logging and on the later steps.  When every
    git command exits with status 1 the publisher prints nothing about it
    and ends with its success line; when [git pull] cannot be started the
    failure is printed, but [add], [commit] and [push] are never run. *)
Lemma publisher_counterexample :
  trace (_git_push_auto flaky_env sample_config (mkState tt None))
  = [ EvRun ["git"; "config"; "--global"; "user.email"; "auto@prosperitytoolbox.dev"]
        "tok" (inr 1%Z);
      EvRun ["git"; "config"; "--global"; "user.name"; "AutoSync Daemon"] "tok" (inr 1%Z);
      EvRun ["git"; "pull"; "https://tok@github.com/o/r.git"; "main"; "--rebase"]
        "tok" (inr 1%Z);
      EvRun ["git"; "add"; "."] "tok" (inr 1%Z);
      EvRun ["git"; "commit"; "-m"; "Automated patch sync: 2024-03-09 07:05:01"]
        "tok" (inr 1%Z);
      EvRun ["git"; "push"; "https://tok@github.com/o/r.git"; "main"] "tok" (inr 1%Z);
      EvPrint (AutoPushed "Automated patch sync: 2024-03-09 07:05:01") ]
  /\ trace (_git_push_auto no_pull_env sample_config (mkState tt None))
     = [ EvRun ["git"; "config"; "--global"; "user.email"; "auto@prosperitytoolbox.dev"]
           "tok" (inr 0%Z);
         EvRun ["git"; "config"; "--global"; "user.name"; "AutoSync Daemon"]
           "tok" (inr 0%Z);
         EvRun ["git"; "pull"; "https://tok@github.com/o/r.git"; "main"; "--rebase"]
           "tok" (inl (OtherError "[Errno 13] Permission denied"));
         EvPrint (PushFailed (OtherError "[Errno 13] Permission denied")) ].
Proof. split; vm_compute; reflexivity. Qed.

(** C8, amended. The publisher starts, in order, the six commands
    [git config user.email], [git config user.name], [git pull --rebase],
    [git add .], [git commit -m msg] and [git push], where [msg] ends in the
    UTC time written [YYYY-MM-DD HH:MM:SS].  An exit status, zero or not, is
    ignored without a log line: the next command is started, and after the
    sixth the publisher prints [Auto-pushed].  A command that raises ends
    the sequence: the remaining ones are not started and [Push failed] is
    printed.  The publisher itself never raises. *)
Theorem publisher_steps {Ext} (env : Environment Ext) (cfg : Config) (st : State Ext) :
  let now := (utcnow env (ext st)).1 in
  let msg := "Automated patch sync: " +:+ strftime now in
  let r := _git_push_auto env cfg st in
  cmds cfg msg
  = [ ["git"; "config"; "--global"; "user.email"; "auto@prosperitytoolbox.dev"];
      ["git"; "config"; "--global"; "user.name"; "AutoSync Daemon"];
      ["git"; "pull"; remote_url cfg; BRANCH cfg; "--rebase"];
      ["git"; "add"; "."];
      ["git"; "commit"; "-m"; msg];
      ["git"; "push"; remote_url cfg; BRANCH cfg] ]
  /\ (valid_datetime now -> is_timestamp (strftime now) = true)
  /\ outcome r = inr tt
  /\ commit_file (final r) = commit_file st
  /\ exists line,
      trace r
      = zip_with (fun cmd o => EvRun cmd (GITHUB_TOKEN cfg) o) (cmds cfg msg)
          (run_outcomes (trace r))
        ++ [EvPrint line]
      /\ ((length (run_outcomes (trace r)) = 6%nat
           /\ Forall exited (run_outcomes (trace r))
           /\ line = AutoPushed msg)
          \/ (exists done e,
                run_outcomes (trace r) = done ++ [inl e]
                /\ Forall exited done
                /\ line = PushFailed e)).
Proof.
  intros now msg r. split; [reflexivity|]. split; [intros _; apply strftime_shape|].
  destruct (git_push_auto_facts env cfg st) as (Ho & Hc & _).
  split; [exact Ho|]. split; [exact Hc|].
  subst r msg now. clear Ho Hc.
  unfold _git_push_auto, try_except, bind, call_utcnow, commit_message, trace.
  destruct (utcnow env (ext st)) as [now e0]. cbn [fst].
  set (msg := "Automated patch sync: " +:+ strftime now).
  cbn [cmds for_each]. unfold bind, call_run, ret, print, emit. cbn [ext commit_file].
  repeat match goal with
  | |- context [subprocess_run env ?c ?t ?e] =>
      destruct (subprocess_run env c t e) as [[?|?] ?]; cbn [fst snd ext commit_file app]
  end;
  eexists; (split; [reflexivity|]); cbn;
  first [ left; repeat split; repeat constructor; eexists; reflexivity
        | right;
          let finish := (eexists; split; [reflexivity|]; split; [|reflexivity];
                         repeat constructor; eexists; reflexivity) in
          first [ exists []; finish | eexists [_]; finish | eexists [_; _]; finish
                | eexists [_; _; _]; finish | eexists [_; _; _; _]; finish
                | eexists [_; _; _; _; _]; finish ] ].
Qed.

Lemma publisher_steps_witness :
  is_timestamp (strftime sample_time) = true.
Proof.
  apply (publisher_steps flaky_env sample_config (mkState tt None)).
  cbv [valid_datetime sample_time year month day hour minute second utcnow
       flaky_env scripted_env fst ext]. lia.
Defined.

(** C9, as stated, fails: with the base endpoint at its default the commit
    request still goes to [api.github.com]. *)
Lemma base_url_counterexample :
  BASE_URL sample_config = "http://127.0.0.1:8000"
  /\ trace (_fetch_commit calm_env sample_config (mkState tt None))
     = [EvUrlopen "https://api.github.com/repos/o/r/commits/main"
          [("Authorization", "token tok")] 30 (inr (JObj (commit_dict "0000" [])))]
  /\ String.prefix (BASE_URL sample_config)
       "https://api.github.com/repos/o/r/commits/main" = false.
Proof. repeat split; vm_compute; reflexivity. Qed.

(** C9, amended. The base endpoint is read into the configuration and used
    nowhere: the commit request always goes to
    [https://api.github.com/repos/REPO/commits/BRANCH], and a cycle behaves
    the same whatever the base endpoint is. *)
Theorem fetch_ignores_base_url {Ext} (env : Environment Ext) (cfg : Config)
    (st : State Ext) (base : string) :
  let cfg' := mkConfig (INTERVAL cfg) base (GITHUB_REPO cfg) (GITHUB_TOKEN cfg)
                (BRANCH cfg) (AUTO_PUSH cfg) in
  (exists o, trace (_fetch_commit env cfg' st)
     = [EvUrlopen ("https://api.github.com/repos/" +:+ GITHUB_REPO cfg +:+
                   "/commits/" +:+ BRANCH cfg) (_headers cfg) 30 o])
  /\ _fetch_commit env cfg' st = _fetch_commit env cfg st
  /\ cycle env cfg' st = cycle env cfg st.
Proof.
  intros cfg'. split; [|split; reflexivity].
  unfold _fetch_commit, call_urlopen, trace.
  change (commit_url cfg') with (commit_url cfg). change (_headers cfg') with (_headers cfg).
  destruct (urlopen_json env (commit_url cfg) (_headers cfg) 30 (ext st)) as [o e0].
  exists o. reflexivity.
Qed.




(** * Further properties of the helpers *)




(** X3. A location that has [github.com] but not [github.com/] makes the
    index [[1]] fail: nothing is requested, and the helper logs the
    [IndexError] against the location as given. *)
Theorem host_without_slash_not_requested {Ext} (env : Environment Ext) (u : string)
    (dest : Path) (st : State Ext) :
  occurs "github.com" u ->
  ~ occurs "github.com/" u ->
  (mkdir_parents env dest (ext st)).1 = None ->
  let r := _safe_download env (JStr u) dest st in
  outcome r = inr tt
  /\ trace r = [EvMkdir dest None; EvPrint (DownloadFailed (JStr u) IndexError)].
Proof.
  intros Hin Hno Hmk.
  assert (Hloc : rewrite_location u = inl IndexError).
  { unfold rewrite_location. apply contains_occurs in Hin. rewrite Hin.
    now rewrite (split_absent _ _ Hno). }
  unfold _safe_download, try_except, bind, lift, call_mkdir, location, outcome, trace.
  rewrite Hloc. destruct (mkdir_parents env dest (ext st)) as [o e1].
  cbn [fst] in Hmk. subst o. split; reflexivity.
Qed.

Lemma host_without_slash_not_requested_witness :
  trace (_safe_download calm_env (JStr "https://github.com?x=1")
           (InProjectRoot "a.txt") (mkState tt None))
  = [EvMkdir (InProjectRoot "a.txt") None;
     EvPrint (DownloadFailed (JStr "https://github.com?x=1") IndexError)].
Proof.
  apply (host_without_slash_not_requested calm_env).
  - apply contains_occurs. reflexivity.
  - apply contains_false. reflexivity.
  - reflexivity.
Defined.

(** X4. A location that is [None] (JSON null), a number or a boolean makes
    the test [in] raise [TypeError] inside the [try]: nothing is requested
    and the failure is logged. *)
Theorem null_location_logged {Ext} (env : Environment Ext) (raw_url : json)
    (dest : Path) (st : State Ext) :
  (raw_url = JNull \/ (exists b, raw_url = JBool b) \/ (exists n, raw_url = JNum n)) ->
  (mkdir_parents env dest (ext st)).1 = None ->
  let r := _safe_download env raw_url dest st in
  outcome r = inr tt
  /\ trace r = [EvMkdir dest None; EvPrint (DownloadFailed raw_url TypeError)].
Proof.
  intros Hraw Hmk.
  unfold _safe_download, try_except, bind, lift, call_mkdir, outcome, trace.
  destruct (mkdir_parents env dest (ext st)) as [o e1]. cbn [fst] in Hmk. subst o.
  destruct Hraw as [-> | [[b ->] | [n ->]]]; split; reflexivity.
Qed.

Lemma null_location_logged_witness :
  trace (_safe_download calm_env JNull (InProjectRoot "sub") (mkState tt None))
  = [EvMkdir (InProjectRoot "sub") None; EvPrint (DownloadFailed JNull TypeError)].
Proof.
  apply (null_location_logged calm_env).
  - left. reflexivity.
  - reflexivity.
Defined.

(** X5. For an added or modified descriptor with a string [filename] and a
    [raw_url], once the directory exists the turn of the file loop ends
    normally with the line [Updated filename], whether the download
    succeeded or failed. *)
Theorem updated_printed_regardless {Ext} (env : Environment Ext) (d : gmap string json)
    (name : string) (raw_url : json) (st : State Ext) :
  wanted (JObj d) = true ->
  d !! "filename" = Some (JStr name) ->
  d !! "raw_url" = Some raw_url ->
  (mkdir_parents env (InProjectRoot name) (ext st)).1 = None ->
  let r := sync_file env (JObj d) st in
  outcome r = inr tt
  /\ trace r = trace (_safe_download env raw_url (InProjectRoot name) st)
               ++ [EvPrint (Updated (JStr name))].
Proof.
  intros Hw Hname Hurl Hmk.
  assert (Hok : outcome (_safe_download env raw_url (InProjectRoot name) st) = inr tt).
  { destruct (safe_download_facts env raw_url (InProjectRoot name) st)
      as (_ & _ & _ & _ & [(e & He & _) | (_ & Ho & _)]);
      [rewrite Hmk in He; discriminate | exact Ho]. }
  unfold wanted in Hw. cbn [dict_get] in Hw.
  unfold sync_file, bind, lift, ret, raise, print, emit, outcome, trace in *.
  cbn [dict_get subscript].
  destruct (in_added_modified (default JNull (d !! "status"))) as [e|[|]]; try discriminate.
  rewrite Hname. cbn [under_root]. rewrite Hurl.
  destruct (_safe_download env raw_url (InProjectRoot name) st) as [[o s1] t1].
  cbn [fst snd] in *. subst o. split; reflexivity.
Qed.

Lemma updated_printed_regardless_witness :
  printed (trace (sync_file flaky_env
     (descriptor "added" "a.txt" "https://github.com/o/r/raw/abc/a.txt") (mkState tt None)))
  = [Fetching (JStr "https://raw.githubusercontent.com/o/r/abc/a.txt");
     DownloadFailed (JStr "https://github.com/o/r/raw/abc/a.txt")
       (OtherError "HTTP Error 404: Not Found");
     Updated (JStr "a.txt")].
Proof.
  destruct (updated_printed_regardless flaky_env
              (<["status" := JStr "added"]> (<["filename" := JStr "a.txt"]>
                 (<["raw_url" := JStr "https://github.com/o/r/raw/abc/a.txt"]> ∅)))
              "a.txt" (JStr "https://github.com/o/r/raw/abc/a.txt") (mkState tt None))
    as [_ Htr]; [vm_compute; reflexivity .. | reflexivity |].
  unfold descriptor. rewrite Htr. vm_compute. reflexivity.
Defined.

Section CharFacts.
#[local] Arguments String.append !_ _ / : simpl nomatch.

Lemma prefix_char (c x : ascii) (s : string) :
  String.prefix (String c "") (String x s) = true <-> c = x.
Proof.
  rewrite prefix_cons. split; [tauto | intros ->; split; [reflexivity | destruct s; reflexivity]].
Qed.

Lemma occurs_char_cons (c x : ascii) (s : string) :
  occurs (String c "") (String x s) <-> c = x \/ occurs (String c "") s.
Proof.
  split.
  - intros H. apply occurs_inv_cons in H as [H|H]; [left; now apply prefix_char in H | now right].
  - intros [->|H]; [exists "", s; reflexivity | now apply occurs_cons].
Qed.

Lemma occurs_char_nil (c : ascii) : ~ occurs (String c "") "".
Proof. intros ([|? ?] & b & H); discriminate. Qed.

Lemma occurs_char_app (c : ascii) (a b : string) :
  occurs (String c "") (a +:+ b) <-> occurs (String c "") a \/ occurs (String c "") b.
Proof.
  induction a as [|x a IH]; simpl.
  - split; [now right | intros [H|H]; [destruct (occurs_char_nil _ H) | exact H]].
  - rewrite !occurs_char_cons, IH. tauto.
Qed.

(** The first field of a split at a character does not have that character. *)
Lemma split_char_head (c : ascii) (s h : string) :
  PyStr.split (String c "") s !! 0%nat = Some h -> ~ occurs (String c "") h.
Proof.
  unfold PyStr.split. revert h. induction s as [|x s IH]; intros h.
  - cbn. intros [= <-]. apply occurs_char_nil.
  - cbn [PyStr.split_from]. destruct (String.prefix (String c "") (String x s)) eqn:Hp.
    + cbn. intros [= <-]. apply occurs_char_nil.
    + destruct (PyStr.split_from (String c "") 0 s) as [|h' t] eqn:Hs; cbn.
      * intros [= <-]. rewrite occurs_char_cons. intros [->|H].
        -- rewrite (proj2 (prefix_char x x s) eq_refl) in Hp. discriminate.
        -- now apply occurs_char_nil in H.
      * intros [= <-]. rewrite occurs_char_cons. intros [->|H].
        -- rewrite (proj2 (prefix_char x x s) eq_refl) in Hp. discriminate.
        -- now apply (IH h').
Qed.

(** Replacing introduces no character that is neither in the text nor in
    the replacement. *)
Lemma replace_from_char (c : ascii) (old new s : string) (k : nat) :
  ~ occurs (String c "") s -> ~ occurs (String c "") new ->
  ~ occurs (String c "") (PyStr.replace_from old new k s).
Proof.
  intros Hs Hnew. revert k. induction s as [|x s IH]; intros k.
  - cbn. apply occurs_char_nil.
  - rewrite occurs_char_cons in Hs.
    assert (Hs' : ~ occurs (String c "") s) by tauto. specialize (IH Hs').
    cbn [PyStr.replace_from]. destruct k; [|apply IH].
    destruct (String.prefix old (String x s)).
    + rewrite occurs_char_app. intros [H|H]; [now apply Hnew | now apply (IH _ H)].
    + rewrite occurs_char_cons. intros [->|H]; [tauto | now apply (IH _ H)].
Qed.

End CharFacts.

(** X6. Whenever a location containing [github.com] is rewritten, the URL
    requested is on [raw.githubusercontent.com] and has no [?]: a query of
    the location is always dropped. *)
Theorem rewritten_url_has_no_query (u url : string) :
  occurs "github.com" u ->
  rewrite_location u = inr url ->
  String.prefix "https://raw.githubusercontent.com/" url = true
  /\ ~ occurs "?" url.
Proof.
  intros Hin. unfold rewrite_location. apply contains_occurs in Hin. rewrite Hin.
  destruct (PyStr.split "github.com/" u !! 1%nat) as [parts|]; [|discriminate].
  destruct (PyStr.split "?" _ !! 0%nat) as [h|] eqn:Hh; [|discriminate].
  intros Heq.
  replace url with ("https://raw.githubusercontent.com/" +:+ PyStr.replace "%2F" "/" h)
    by congruence.
  split; [apply prefix_append|].
  rewrite occurs_char_app. intros [H|H].
  - apply contains_occurs in H. discriminate.
  - revert H. apply replace_from_char.
    + exact (split_char_head _ _ _ Hh).
    + apply contains_false. reflexivity.
Qed.

Lemma rewritten_url_has_no_query_witness :
  ~ occurs "?" "https://raw.githubusercontent.com/repos/o/r/contents/a.txt".
Proof.
  apply (rewritten_url_has_no_query
           "https://api.github.com/repos/o/r/contents/a.txt?ref=main?x").
  - apply contains_occurs. reflexivity.
  - vm_compute. reflexivity.
Defined.

(** * Further properties of a turn of the loop *)

Section TurnFacts.
Context {Ext : Type}.
Variable env : Environment Ext.
Variable cfg : Config.

Lemma download_turn_events (tr : list event) :
  Forall download_event tr -> Forall turn_event tr.
Proof.
  intros H. eapply Forall_impl; [exact H|]. intros [| | | | |[]| |]; simpl; tauto.
Qed.

Lemma publish_turn_events (tr : list event) :
  Forall publish_event tr -> Forall turn_event tr /\ commit_requests tr = [].
Proof.
  induction 1 as [|ev tr Hev _ [IH1 IH2]]; [split; [constructor | reflexivity]|].
  destruct ev as [| | | | |[]| |]; simpl in Hev; try contradiction;
    (split; [constructor; [exact I | exact IH1] | exact IH2]).
Qed.

(** The shape of a turn: one commit request, then either nothing that
    writes or runs a command, or the file loop, the write and what the
    publisher does. *)
Lemma cycle_shape (st : State Ext) :
  let r := cycle env cfg st in
  exists tr,
    trace r = EvUrlopen (commit_url cfg) (_headers cfg) 30 (fetched env cfg st) :: tr
    /\ Forall turn_event tr
    /\ ((writes tr = [] /\ commands tr = []
         /\ (state_file_spared env tr -> commit_file (final r) = commit_file st))
        \/ (exists sha push,
              writes tr = [sha] /\ commit_file (final r) = Some sha
              /\ commands tr = commands push
              /\ (AUTO_PUSH cfg = false -> push = []))).
Proof.
  destruct (cycle_facts env cfg st) as (_ & _ & tr & Htr & Hcases).
  exists tr. split; [exact Htr|].
  destruct Hcases as [[Hw Hc] | H].
  - revert Htr Hw Hc.
    unfold cycle, try_except, cycle_body, _fetch_commit, call_urlopen, fetched,
      outcome, final, trace, bind, lift, ret, raise, print, emit, read_prev.
    cbn -[for_each _git_push_auto commit_url _headers py_iter files_or_empty eq_prev
          stored_hash writes commands state_file_spared].
    destruct (urlopen_json env (commit_url cfg) (_headers cfg) 30 (ext st))
      as [[e|commit] e0]; cbn -[for_each _git_push_auto py_iter files_or_empty eq_prev
                                stored_hash writes commands commit_url _headers
                                state_file_spared].
    { intros [= <-] Hw Hc. split; [repeat constructor|]. left. facts. }
    destruct commit as [| | | | |d];
      cbn -[for_each _git_push_auto py_iter files_or_empty eq_prev stored_hash
            writes commands commit_url _headers state_file_spared];
      try (intros [= <-] Hw Hc; (split; [repeat constructor|]); left; facts; fail).
    destruct (stored_hash (commit_file st)) as [e|prev] eqn:Hprev;
      cbn -[for_each _git_push_auto py_iter files_or_empty eq_prev
            writes commands commit_url _headers state_file_spared].
    { intros [= <-] Hw Hc. split; [repeat constructor|]. left. facts. }
    destruct (eq_prev (default JNull (d !! "sha")) prev) eqn:Heq.
    { destruct (default JNull (d !! "sha")); cbn -[commit_url _headers state_file_spared];
        intros [= <-] Hw Hc; (split; [repeat constructor|]); left; facts. }
    destruct (py_iter (files_or_empty (default JNull (d !! "files")))) as [e|files] eqn:Hit;
      cbn -[for_each _git_push_auto eq_prev writes commands commit_url _headers
            state_file_spared].
    { intros [= <-] Hw Hc. split; [repeat constructor|]. left. facts. }
    pose proof (sync_files_facts env files (mkState e0 (commit_file st))) as (Hev & _).
    destruct (for_each (sync_file env) files (mkState e0 (commit_file st)))
      as [[[e|[]] s1] t1]; unfold outcome, final, trace in *;
      cbn -[for_each _git_push_auto eq_prev writes commands commit_url _headers
            state_file_spared] in *;
      destruct (download_events_quiet _ Hev) as (Hw1 & _ & Hcm);
      pose proof (download_turn_events _ Hev) as Hte.
    { intros [= <-] Hw Hc.
      split; [apply Forall_app; split; [exact Hte | repeat constructor]|].
      left. unfold commands in *. rewrite !omap_app, Hcm. facts. }
    destruct (d !! "sha") as [sha|] eqn:Hsha; cbn [default from_option] in *; unfold id in *;
      [destruct sha as [| | |sha| |]|];
      cbn -[for_each _git_push_auto eq_prev writes commands commit_url _headers
            state_file_spared];
      rewrite ?app_nil_r;
      try (intros [= <-] Hw Hc;
           (split; [apply Forall_app; split; [exact Hte | repeat constructor]|]);
           left; unfold commands in *; rewrite !omap_app, Hcm; facts; fail).
    pose proof (git_push_auto_facts env cfg (mkState (ext s1) (Some sha))) as (Ho & _).
    destruct (AUTO_PUSH cfg);
      [destruct (_git_push_auto env cfg (mkState (ext s1) (Some sha))) as [[o s2] t2];
       unfold outcome in Ho; cbn [fst] in Ho; subst o|];
      cbn -[writes commit_url _headers state_file_spared];
      intros [= <-] Hw; exfalso; revert Hw; unfold writes in *;
      rewrite !omap_app, Hw1; csimpl; discriminate.
  - destruct H as (d & sha & prev & files & outcomes & downloads & rest & _ & _ & _ & _ & _ &
                   _ & Hsteps & -> & _ & _ & Hpe & Hoff & Hc).
    destruct (files_steps_facts (List.filter wanted files) outcomes) as [Hev _].
    rewrite <- Hsteps in Hev.
    destruct (download_events_quiet _ Hev) as (Hw & _ & Hcm).
    destruct (publish_events_quiet _ Hpe) as (Hw2 & _).
    split.
    { apply Forall_app. split; [now apply download_turn_events|].
      repeat constructor. now apply publish_turn_events. }
    right. exists sha, rest. unfold writes, commands in *.
    rewrite !omap_app, Hw, Hcm. csimpl. rewrite Hw2. facts.
Qed.

Lemma loop_final (n : nat) (st : State Ext) :
  final (loop env cfg (S n) st) = final (loop env cfg n (final (cycle env cfg st))).
Proof.
  cbn [loop]. pose proof (cycle_facts env cfg st) as (Ho & _).
  unfold bind, sleep, emit, outcome, final in *.
  destruct (cycle env cfg st) as [[o s1] t1]. cbn [fst snd] in *. subst o.
  destruct (loop env cfg n s1) as [[o2 s2] t2]. reflexivity.
Qed.

End TurnFacts.

(** X7. When the commit has no [files] entry, or one that is null, empty,
    zero or false, a new hash is persisted without any download, and the
    publisher is then run exactly when push is enabled. *)
Theorem no_files_still_persists {Ext} (env : Environment Ext) (cfg : Config)
    (st : State Ext) d (sha : string) prev :
  fetched env cfg st = inr (JObj d) ->
  d !! "sha" = Some (JStr sha) ->
  stored_hash (commit_file st) = inr prev ->
  eq_prev (JStr sha) prev = false ->
  truthy (default JNull (d !! "files")) = false ->
  let r := cycle env cfg st in
  let push := if AUTO_PUSH cfg
              then trace (_git_push_auto env cfg
                            (mkState (ext (after_fetch env cfg st)) (Some sha)))
              else [] in
  trace r = EvUrlopen (commit_url cfg) (_headers cfg) 30 (inr (JObj d))
            :: EvWriteText sha :: EvPrint SyncComplete :: push
  /\ Forall publish_event push
  /\ commit_file (final r) = Some sha.
Proof.
  intros Hfetch Hsha Hprev Hnew Hfalsy r push. subst r push.
  destruct (cycle_new_commit env cfg st d prev []) as (rest & Htr & _ & _ & _ & _ & Hok & _).
  - exact Hfetch.
  - exact Hprev.
  - now rewrite Hsha.
  - unfold files_or_empty. now rewrite Hfalsy.
  - destruct (Hok sha eq_refl Hsha) as (push & -> & Hpe & Hpush & Hc).
    cbn [for_each ret final trace fst snd app] in *. rewrite <- Hpush. auto.
Qed.

Lemma no_files_still_persists_witness :
  trace (cycle bare_env sample_config (mkState tt None))
  = [ EvUrlopen "https://api.github.com/repos/o/r/commits/main"
        [("Authorization", "token tok")] 30
        (inr (JObj (<["sha" := JStr "abcdef0123456789"]> ∅)));
      EvWriteText "abcdef0123456789"; EvPrint SyncComplete;
      EvRun ["git"; "config"; "--global"; "user.email"; "auto@prosperitytoolbox.dev"]
        "tok" (inr 0%Z);
      EvRun ["git"; "config"; "--global"; "user.name"; "AutoSync Daemon"] "tok" (inr 0%Z);
      EvRun ["git"; "pull"; "https://tok@github.com/o/r.git"; "main"; "--rebase"]
        "tok" (inr 0%Z);
      EvRun ["git"; "add"; "."] "tok" (inr 0%Z);
      EvRun ["git"; "commit"; "-m"; "Automated patch sync: 2024-03-09 07:05:01"]
        "tok" (inr 0%Z);
      EvRun ["git"; "push"; "https://tok@github.com/o/r.git"; "main"] "tok" (inr 0%Z);
      EvPrint (AutoPushed "Automated patch sync: 2024-03-09 07:05:01") ].
Proof.
  destruct (no_files_still_persists bare_env sample_config (mkState tt None)
              (<["sha" := JStr "abcdef0123456789"]> ∅) "abcdef0123456789" None)
    as (Htr & _); [reflexivity | vm_compute; reflexivity | reflexivity
                  | vm_compute; reflexivity ..|].
  rewrite Htr. vm_compute. reflexivity.
Defined.

(** X8. When [files] is a non-empty string or dict, a non-zero number or
    [true], the turn raises [TypeError] or [AttributeError] before any
    download: the error is reported and the state file is not written. *)
Theorem files_not_a_list_aborts {Ext} (env : Environment Ext) (cfg : Config)
    (st : State Ext) d prev (v : json) :
  fetched env cfg st = inr (JObj d) ->
  stored_hash (commit_file st) = inr prev ->
  eq_prev (default JNull (d !! "sha")) prev = false ->
  d !! "files" = Some v ->
  truthy v = true ->
  (forall l, v <> JArr l) ->
  let r := cycle env cfg st in
  exists e,
    (e = TypeError \/ e = AttributeError)
    /\ trace r = [EvUrlopen (commit_url cfg) (_headers cfg) 30 (inr (JObj d));
                  EvPrint (Error e); EvPrintExc]
    /\ commit_file (final r) = commit_file st.
Proof.
  intros Hfetch Hprev Hnew Hfiles Htruthy Hnolist r. subst r.
  assert (Hiter : (exists x xs, py_iter v = inr (JStr x :: xs)) \/ py_iter v = inl TypeError).
  { destruct v as [|b|n|s|l|m]; cbn in *; try discriminate; eauto.
    - left. destruct s as [|c s]; [discriminate|]. cbn. eauto.
    - destruct (Hnolist l eq_refl).
    - left. destruct (map_to_list m) as [|[k x] kvs] eqn:Hm.
      + apply map_to_list_empty_iff in Hm. subst m.
        rewrite bool_decide_eq_true_2 in Htruthy by reflexivity. discriminate.
      + cbn. eauto. }
  destruct Hiter as [(x & xs & Hiter) | Hiter].
  - destruct (cycle_new_commit env cfg st d prev (JStr x :: xs))
      as (rest & Htr & _ & _ & _ & Herr & _).
    + exact Hfetch.
    + exact Hprev.
    + exact Hnew.
    + rewrite Hfiles. cbn [default from_option]. unfold id, files_or_empty.
      now rewrite Htruthy.
    + cbn in Herr, Htr. destruct (Herr AttributeError eq_refl) as [-> Hc].
      exists AttributeError. split; [now right|]. split; [exact Htr | exact Hc].
  - exists TypeError. split; [now left|].
    unfold fetched in Hfetch.
    unfold cycle, try_except, cycle_body, _fetch_commit, call_urlopen, bind, lift, ret,
      raise, read_prev, print, emit, final, trace.
    destruct (urlopen_json env (commit_url cfg) (_headers cfg) 30 (ext st)) as [o e0].
    cbn [fst snd] in *. subst o. cbn [dict_get commit_file]. rewrite Hprev, Hnew, Hfiles.
    cbn [default from_option]. unfold id, files_or_empty. rewrite Htruthy, Hiter.
    split; reflexivity.
Qed.

Lemma files_not_a_list_aborts_witness :
  trace (cycle odd_files_env quiet_config (mkState tt None))
  = [EvUrlopen "https://api.github.com/repos/o/r/commits/main" [] 30
       (inr (JObj (<["sha" := JStr "abcdef0123456789"]> (<["files" := JStr "a.txt"]> ∅))));
     EvPrint (Error AttributeError); EvPrintExc].
Proof.
  destruct (files_not_a_list_aborts odd_files_env quiet_config (mkState tt None)
              (<["sha" := JStr "abcdef0123456789"]> (<["files" := JStr "a.txt"]> ∅))
              None (JStr "a.txt"))
    as (e & _ & Htr & _);
    [reflexivity | reflexivity | vm_compute; reflexivity | vm_compute; reflexivity
    | reflexivity | discriminate |].
  vm_compute. reflexivity.
Defined.

(** X9. When there is no state file and the answer has no [sha] (or a null
    one), [sha == prev] holds with both [None], and [sha[:8]] raises
    [TypeError]: the turn reports the error instead of [No new commits] and
    writes nothing. *)
Theorem first_run_without_sha {Ext} (env : Environment Ext) (cfg : Config)
    (st : State Ext) d :
  fetched env cfg st = inr (JObj d) ->
  default JNull (d !! "sha") = JNull ->
  commit_file st = None ->
  let r := cycle env cfg st in
  trace r = [EvUrlopen (commit_url cfg) (_headers cfg) 30 (inr (JObj d));
             EvPrint (Error TypeError); EvPrintExc]
  /\ commit_file (final r) = None.
Proof.
  intros Hfetch Hsha Hc. unfold fetched in Hfetch.
  unfold cycle, try_except, cycle_body, _fetch_commit, call_urlopen, bind, lift, ret,
    raise, read_prev, print, emit, final, trace.
  destruct (urlopen_json env (commit_url cfg) (_headers cfg) 30 (ext st)) as [o e0].
  cbn [fst snd] in *. subst o. cbn [dict_get commit_file]. rewrite Hsha, Hc.
  split; reflexivity.
Qed.

Lemma first_run_without_sha_witness :
  trace (cycle message_env quiet_config (mkState tt None))
  = [EvUrlopen "https://api.github.com/repos/o/r/commits/main" [] 30
       (inr (JObj (<["message" := JStr "Not Found"]> ∅)));
     EvPrint (Error TypeError); EvPrintExc].
Proof.
  apply (first_run_without_sha message_env quiet_config (mkState tt None)
           (<["message" := JStr "Not Found"]> ∅)).
  - reflexivity.
  - vm_compute. reflexivity.
  - reflexivity.
Defined.



(** X11. When the answer of the API is not a JSON object, [commit.get]
    raises [AttributeError]: the turn reports it and does nothing else. *)
Theorem fetch_non_dict_aborts {Ext} (env : Environment Ext) (cfg : Config)
    (st : State Ext) (v : json) :
  fetched env cfg st = inr v ->
  (forall d, v <> JObj d) ->
  let r := cycle env cfg st in
  trace r = [EvUrlopen (commit_url cfg) (_headers cfg) 30 (inr v);
             EvPrint (Error AttributeError); EvPrintExc]
  /\ commit_file (final r) = commit_file st.
Proof.
  intros Hfetch Hv. unfold fetched in Hfetch.
  unfold cycle, try_except, cycle_body, _fetch_commit, call_urlopen, bind, lift, ret,
    raise, read_prev, print, emit, final, trace.
  destruct (urlopen_json env (commit_url cfg) (_headers cfg) 30 (ext st)) as [o e0].
  cbn [fst snd] in *. subst o.
  destruct v; try (split; reflexivity). destruct (Hv d eq_refl).
Qed.

Lemma fetch_non_dict_aborts_witness :
  trace (cycle list_env quiet_config (mkState tt (Some "0000")))
  = [EvUrlopen "https://api.github.com/repos/o/r/commits/main" [] 30 (inr (JArr []));
     EvPrint (Error AttributeError); EvPrintExc].
Proof.
  apply (fetch_non_dict_aborts list_env quiet_config (mkState tt (Some "0000")) (JArr [])).
  - reflexivity.
  - discriminate.
Defined.

(** X12. Git is run only in a turn that has just written a new hash to the
    state file, and only when push is enabled; with push disabled no turn of
    the loop ever runs a command. *)
Theorem publisher_only_after_persist {Ext} (env : Environment Ext) (cfg : Config)
    (st : State Ext) :
  commands (trace (cycle env cfg st)) <> [] ->
  AUTO_PUSH cfg = true
  /\ exists sha, writes (trace (cycle env cfg st)) = [sha]
                 /\ commit_file (final (cycle env cfg st)) = Some sha.
Proof.
  destruct (cycle_shape env cfg st) as (tr & Htr & _ & [(Hw & Hc & _) | H]).
  - rewrite Htr. unfold commands in *. csimpl. rewrite Hc. intros []. reflexivity.
  - destruct H as (sha & push & Hw & Hcf & Hc & Hoff). rewrite Htr.
    unfold commands, writes in *. csimpl. intros Hne. split.
    + destruct (AUTO_PUSH cfg); [reflexivity|]. rewrite Hc, (Hoff eq_refl) in Hne.
      destruct Hne. reflexivity.
    + exists sha. split; [exact Hw | exact Hcf].
Qed.

Lemma publisher_only_after_persist_witness :
  exists sha, writes (trace (cycle steady_env sample_config (mkState tt None))) = [sha]
              /\ commit_file (final (cycle steady_env sample_config (mkState tt None)))
                 = Some sha.
Proof.
  apply (publisher_only_after_persist steady_env sample_config (mkState tt None)).
  vm_compute. discriminate.
Defined.

(** X13. With push disabled, no number of turns ever runs a command. *)
Theorem push_disabled_runs_nothing {Ext} (env : Environment Ext) (cfg : Config)
    (n : nat) (st : State Ext) :
  AUTO_PUSH cfg = false ->
  commands (trace (run_autosync_daemon env cfg n st)) = [].
Proof.
  intros Hoff.
  assert (Hloop : forall k s, commands (trace (loop env cfg k s)) = []).
  { induction k as [|k IH]; intros s; [reflexivity|].
    rewrite loop_step. unfold commands in *. rewrite omap_app. csimpl. rewrite IH.
    destruct (cycle_shape env cfg s) as (tr & -> & _ & [(_ & Hc & _) | H]).
    - unfold commands in Hc. csimpl. now rewrite Hc.
    - destruct H as (sha & push & _ & _ & Hc & Hp). unfold commands in Hc. csimpl.
      now rewrite Hc, (Hp Hoff). }
  unfold run_autosync_daemon, bind, print, emit, trace.
  specialize (Hloop n st). unfold trace in Hloop.
  destruct (loop env cfg n st) as [[o s1] t1]. exact Hloop.
Qed.

Lemma push_disabled_runs_nothing_witness :
  commands (trace (run_autosync_daemon steady_env quiet_config 3 (mkState tt None))) = [].
Proof.
  apply (push_disabled_runs_nothing steady_env quiet_config). reflexivity.
Defined.

(** X14. The daemon prints its start line and then makes exactly one commit
    request per turn, always to the same URL, with a timeout of 30 and with
    the [Authorization] header exactly when a token is configured. *)
Theorem one_commit_request_per_turn {Ext} (env : Environment Ext) (cfg : Config)
    (n : nat) (st : State Ext) :
  let tr := trace (run_autosync_daemon env cfg n st) in
  head tr = Some (EvPrint (DaemonOnline (INTERVAL cfg) (GITHUB_REPO cfg) (BRANCH cfg)))
  /\ commit_requests tr
     = replicate n ("https://api.github.com/repos/" +:+ GITHUB_REPO cfg +:+
                    "/commits/" +:+ BRANCH cfg,
                    if String.eqb (GITHUB_TOKEN cfg) "" then []
                    else [("Authorization", "token " +:+ GITHUB_TOKEN cfg)],
                    30%Z).
Proof.
  assert (Hloop : forall k s,
    commit_requests (trace (loop env cfg k s))
    = replicate k (commit_url cfg, _headers cfg, 30%Z)).
  { induction k as [|k IH]; intros s; [reflexivity|].
    rewrite loop_step. unfold commit_requests in *. rewrite omap_app. csimpl. rewrite IH.
    destruct (cycle_shape env cfg s) as (tr & -> & Hte & _). csimpl.
    replace (omap _ tr) with (@nil (string * list (string * string) * Z)); [reflexivity|].
    symmetry. clear -Hte. induction Hte as [|ev tr Hev _ IHt]; [reflexivity|].
    destruct ev; simpl in Hev; try contradiction; exact IHt. }
  unfold run_autosync_daemon, bind, print, emit, trace.
  specialize (Hloop n st). unfold trace in Hloop.
  destruct (loop env cfg n st) as [[o s1] t1]. split; [reflexivity | exact Hloop].
Qed.







(** * Further properties of the pure helpers *)

Section StripFacts.
#[local] Arguments String.append !_ _ / : simpl nomatch.

Lemma rstrip_where_cons (p : ascii -> bool) (c : ascii) (s : string) :
  PyStr.rstrip_where p (String c s)
  = match PyStr.rstrip_where p s with
    | EmptyString => if p c then EmptyString else String c EmptyString
    | r => String c r
    end.
Proof. reflexivity. Qed.

Lemma rstrip_where_ends_clean (p : ascii -> bool) (s : string) :
  ends_clean p (PyStr.rstrip_where p s).
Proof.
  induction s as [|c s IH]; intros pre x H.
  - destruct pre; discriminate.
  - rewrite rstrip_where_cons in H.
    destruct (PyStr.rstrip_where p s) as [|y r] eqn:Hr.
    + destruct (p c) eqn:Hc; [destruct pre; discriminate|].
      destruct pre as [|? [|? ?]]; simpl in H; try discriminate. now injection H as <-.
    + destruct pre as [|z pre]; simpl in H; [discriminate|].
      injection H as _ H. exact (IH pre x H).
Qed.

(** What [rstrip] removes is made of the characters it looks for. *)
Lemma rstrip_slash_split (s : string) :
  exists k, s = PyStr.rstrip_slash s +:+ slashes k.
Proof.
  unfold PyStr.rstrip_slash. induction s as [|c s [k IH]]; [exists 0%nat; reflexivity|].
  rewrite rstrip_where_cons.
  destruct (PyStr.rstrip_where (Ascii.eqb "/") s) as [|y r] eqn:Hr.
  - destruct (Ascii.eqb "/" c) eqn:Hc.
    + apply Ascii.eqb_eq in Hc. subst c. exists (S k). simpl in *. now rewrite <- IH.
    + exists k. simpl in *. now rewrite <- IH.
  - exists k. simpl in *. now rewrite <- IH.
Qed.

End StripFacts.

(** X18. The configured base endpoint never ends with a slash: it is the
    value of the variable (or the default [http://127.0.0.1:8000]) with all
    its trailing slashes, and nothing else, removed. *)
Theorem base_url_no_trailing_slash (v : option string) :
  (forall p, BASE_URL_of_env v <> p +:+ "/")
  /\ (exists k, default "http://127.0.0.1:8000" v = BASE_URL_of_env v +:+ slashes k)
  /\ (v = None -> BASE_URL_of_env v = "http://127.0.0.1:8000").
Proof.
  split; [|split].
  - intros p H.
    pose proof (rstrip_where_ends_clean (Ascii.eqb "/")
                  (default "http://127.0.0.1:8000" v) p "/"%char H) as Hc.
    discriminate.
  - apply rstrip_slash_split.
  - intros ->. reflexivity.
Qed.

(** X19. A hash made of visible ASCII characters (a hexadecimal digest is
    one) that is written to the state file is read back unchanged by the
    next turn. *)
Theorem persisted_hash_round_trip {Ext} (st : State Ext) (sha : string) :
  forallb visible (list_ascii_of_string sha) = true ->
  let r := (write_text (JStr sha) ;; read_prev) st in
  outcome r = inr (Some sha)
  /\ commit_file (final r) = Some sha
  /\ trace r = [EvWriteText sha].
Proof.
  intros Hv. unfold bind, write_text, read_prev, outcome, final, trace.
  cbn [commit_file ext fst snd]. rewrite (visible_stored sha Hv). repeat split.
Qed.

Lemma persisted_hash_round_trip_witness :
  outcome ((write_text (JStr "abcdef0123456789") ;; read_prev) (mkState tt None))
  = inr (Some "abcdef0123456789").
Proof.
  apply (persisted_hash_round_trip (mkState tt None) "abcdef0123456789").
  reflexivity.
Defined.

Section TimestampFacts.

Lemma digit_inj (a b : nat) : (a < 10)%nat -> (b < 10)%nat -> digit a = digit b -> a = b.
Proof.
  intros Ha Hb H. apply (f_equal nat_of_ascii) in H. unfold digit in H.
  rewrite !nat_ascii_embedding in H by lia. lia.
Qed.

Lemma string_cons_inj (a b : ascii) (s t : string) :
  String a s = String b t -> a = b /\ s = t.
Proof. intros H. now inversion H. Qed.

Lemma digit_mod_inj (a b : nat) : digit (a mod 10) = digit (b mod 10) -> a mod 10 = b mod 10.
Proof. apply digit_inj; apply Nat.mod_upper_bound; discriminate. Qed.

Lemma two_digits_inj (a b : nat) :
  (a < 100)%nat -> (b < 100)%nat -> two_digits a = two_digits b -> a = b.
Proof.
  intros Ha Hb H. unfold two_digits in H.
  apply string_cons_inj in H as [H1 H]. apply string_cons_inj in H as [H0 _].
  apply digit_mod_inj in H1, H0.
  pose proof (Nat.div_mod_eq a 10). pose proof (Nat.div_mod_eq b 10).
  pose proof (Nat.mod_small (a / 10) 10). pose proof (Nat.mod_small (b / 10) 10).
  assert (a / 10 < 10)%nat by (apply Nat.Div0.div_lt_upper_bound; lia).
  assert (b / 10 < 10)%nat by (apply Nat.Div0.div_lt_upper_bound; lia).
  lia.
Qed.

Lemma four_digits_inj (a b : nat) :
  (Z.of_nat a < 10000)%Z -> (Z.of_nat b < 10000)%Z -> four_digits a = four_digits b -> a = b.
Proof.
  intros Ha Hb H. unfold four_digits, two_digits in H.
  apply string_cons_inj in H as [H3 H]. apply string_cons_inj in H as [H2 H].
  apply string_cons_inj in H as [H1 H]. apply string_cons_inj in H as [H0 _].
  apply digit_mod_inj in H3, H2, H1, H0.
  assert (Hd : forall n, (Z.of_nat n < 10000)%Z ->
    n = (1000 * (n / 1000 mod 10) + 100 * (n / 100 mod 10)
         + 10 * (n / 10 mod 10) + n mod 10)%nat).
  { intros n Hn.
    pose proof (Nat.div_mod_eq n 10). pose proof (Nat.div_mod_eq (n / 10) 10).
    pose proof (Nat.div_mod_eq (n / 10 / 10) 10).
    rewrite !Nat.Div0.div_div in *. change (10 * 10)%nat with 100%nat in *.
    change (100 * 10)%nat with 1000%nat in *.
    assert (n / 1000 < 10)%nat by (apply Nat.Div0.div_lt_upper_bound; lia).
    pose proof (Nat.mod_small (n / 1000) 10). lia. }
  rewrite (Hd a Ha), (Hd b Hb). congruence.
Qed.

End TimestampFacts.

(** X20. The time stamp determines the time: two valid UTC times with the
    same commit message are the same second, so commits made in different
    seconds get different messages. *)
Theorem commit_message_determines_time (dt1 dt2 : datetime) :
  valid_datetime dt1 -> valid_datetime dt2 ->
  commit_message dt1 = commit_message dt2 -> dt1 = dt2.
Proof.
  intros (Hy1 & Hm1 & Hd1 & Hh1 & Hn1 & Hs1) (Hy2 & Hm2 & Hd2 & Hh2 & Hn2 & Hs2) H.
  unfold commit_message in H. apply (inj (String.append _)) in H.
  destruct dt1 as [y1 m1 d1 h1 n1 s1], dt2 as [y2 m2 d2 h2 n2 s2].
  cbn [year month day hour minute second] in *.
  unfold strftime in H. cbn [year month day hour minute second] in H.
  assert (Hsplit : forall a b c d,
    String.length a = String.length c -> a +:+ b = c +:+ d -> a = c /\ b = d).
  { clear. induction a as [|p a IH]; intros b [|q c] d Hl Heq; try discriminate.
    - split; [reflexivity | exact Heq].
    - injection Hl as Hl. apply string_cons_inj in Heq as [-> Heq].
      destruct (IH b c d Hl Heq) as [-> ?]. split; [reflexivity | assumption]. }
  apply Hsplit in H as [Hy H]; [|reflexivity]. apply (inj (String.append _)) in H.
  apply Hsplit in H as [Hm H]; [|reflexivity]. apply (inj (String.append _)) in H.
  apply Hsplit in H as [Hd H]; [|reflexivity]. apply (inj (String.append _)) in H.
  apply Hsplit in H as [Hh H]; [|reflexivity]. apply (inj (String.append _)) in H.
  apply Hsplit in H as [Hn Hs]; [|reflexivity]. apply (inj (String.append _)) in Hs.
  apply four_digits_inj in Hy; [|lia ..].
  apply two_digits_inj in Hm, Hd, Hh, Hn, Hs; try lia.
  congruence.
Qed.

Lemma commit_message_determines_time_witness :
  sample_time = mkDatetime 2024 3 9 7 5 1.
Proof.
  apply (commit_message_determines_time sample_time (mkDatetime 2024 3 9 7 5 1)).
  - cbv [valid_datetime sample_time year month day hour minute second]. lia.
  - cbv [valid_datetime year month day hour minute second]. lia.
  - reflexivity.
Defined.

(** * The state file *)

(** X21. When the state file cannot be decoded, reading it raises inside
    the turn: a turn that got a commit object reports [UnicodeDecodeError]
    right after the commit request.  No turn downloads, writes or runs a
    command, and the state file stays as it is: the daemon syncs nothing
    until the file is repaired. *)
Theorem undecodable_state_file_blocks_sync {Ext} (env : Environment Ext) (cfg : Config)
    (st : State Ext) (e : exn) :
  stored_hash (commit_file st) = inl e ->
  e = UnicodeDecodeError
  /\ (forall d, fetched env cfg st = inr (JObj d) ->
        trace (cycle env cfg st)
        = [EvUrlopen (commit_url cfg) (_headers cfg) 30 (inr (JObj d));
           EvPrint (Error UnicodeDecodeError); EvPrintExc])
  /\ (forall n,
        attempts (trace (loop env cfg n st)) = []
        /\ writes (trace (loop env cfg n st)) = []
        /\ commands (trace (loop env cfg n st)) = []
        /\ commit_file (final (loop env cfg n st)) = commit_file st).
Proof.
  intros Hbad.
  assert (He : e = UnicodeDecodeError).
  { unfold stored_hash, read_text in Hbad. destruct (commit_file st) as [c|]; [|discriminate].
    destruct (PyStr.chars c); [discriminate|]. congruence. }
  subst e. split; [reflexivity|].
  assert (Hturn : forall s : State Ext,
    stored_hash (commit_file s) = inl UnicodeDecodeError ->
    (forall d, fetched env cfg s = inr (JObj d) ->
       trace (cycle env cfg s)
       = [EvUrlopen (commit_url cfg) (_headers cfg) 30 (inr (JObj d));
          EvPrint (Error UnicodeDecodeError); EvPrintExc])
    /\ attempts (trace (cycle env cfg s)) = []
    /\ writes (trace (cycle env cfg s)) = []
    /\ commands (trace (cycle env cfg s)) = []
    /\ commit_file (final (cycle env cfg s)) = commit_file s).
  { intros s Hs. unfold fetched.
    unfold cycle, try_except, cycle_body, _fetch_commit, call_urlopen, bind, lift, ret,
      raise, read_prev, print, emit, final, trace.
    destruct (urlopen_json env (commit_url cfg) (_headers cfg) 30 (ext s)) as [[e|v] e0];
      cbn [fst snd].
    { repeat split. intros d [=]. }
    destruct v as [| | | | |d]; cbn [dict_get]; try (repeat split; intros d [=]; fail).
    cbn [commit_file fst snd]. rewrite Hs. repeat split. now intros d' [= <-]. }
  split; [apply Hturn, Hbad|].
  intros n. revert st Hbad. induction n as [|n IH]; intros st Hbad; [repeat split|].
  destruct (Hturn st Hbad) as (_ & Hat & Hw & Hcm & Hc).
  rewrite <- Hc in Hbad. destruct (IH _ Hbad) as (Hat' & Hw' & Hcm' & Hc').
  rewrite loop_final, loop_step.
  unfold attempts, writes, commands in *. rewrite !omap_app. csimpl.
  rewrite Hat, Hw, Hcm, Hat', Hw', Hcm', Hc', Hc. repeat split.
Qed.

Lemma undecodable_state_file_blocks_sync_witness :
  trace (cycle steady_env quiet_config (mkState tt (Some (PyStr.seq1 "255"))))
  = [EvUrlopen "https://api.github.com/repos/o/r/commits/main" [] 30
       (inr (JObj sample_commit));
     EvPrint (Error UnicodeDecodeError); EvPrintExc].
Proof.
  destruct (undecodable_state_file_blocks_sync steady_env quiet_config
              (mkState tt (Some (PyStr.seq1 "255"))) UnicodeDecodeError) as (_ & H & _).
  - reflexivity.
  - apply (H sample_commit). reflexivity.
Defined.
